(** * Object-creation patterns demo: a store model of [src/index.js]

    The script builds plain JavaScript objects and arrays, shares some of
    them (the [AppConfig] singleton, the builder's working order) and
    copies others ([build], [clone]).  The claims are about identity and
    aliasing as much as about values, so objects live in a store indexed
    by locations and every method is a state transformer on that store. *)

From stdpp Require Import gmap strings list fin_maps pretty.

Local Open Scope Z_scope.

(** ** Values, objects, store *)

Abbreviation loc := positive.

(** The primitive values the script manipulates, plus references.
    Numbers are the integer-valued ones (prices, amounts, card numbers);
    a string is a sequence of code units, one character each. *)
Inductive val : Type :=
| VUndef
| VNull
| VBool (b : bool)
| VNum (n : Z)
| VStr (s : string)
| VRef (l : loc).

#[global] Instance val_eq_dec : EqDecision val.
Proof. solve_decision. Defined.

(** An object carries the name of the class that constructed it (its
    prototype, used for method dispatch) and its own properties in
    insertion order; an array carries its elements. *)
Inductive obj : Type :=
| OObj (cls : string) (fields : list (string * val))
| OArr (elems : list val).

(** The global state: the store, the static field [AppConfig._instance],
    and whether the host defines the global function [structuredClone]. *)
Record state : Type := State {
  heap : gmap loc obj;
  AppConfig_instance : val;
  host_structuredClone : bool
}.

Definition with_heap (h : gmap loc obj) (σ : state) : state :=
  State h (AppConfig_instance σ) (host_structuredClone σ).

Definition with_instance (v : val) (σ : state) : state :=
  State (heap σ) v (host_structuredClone σ).

(** ** Outcomes and the state monad *)

Inductive exn : Type :=
| Error (msg : string)
| TypeError (msg : string)
| SyntaxError (msg : string).

(** [Unmodelled] marks behaviour of the language that this development
    does not describe (string concatenation by [+], property reads on
    numbers, ...).  No theorem below is about an [Unmodelled] run. *)
Inductive outcome (A : Type) : Type :=
| Ok (a : A)
| Throw (e : exn)
| Unmodelled.
Arguments Ok {A} a.
Arguments Throw {A} e.
Arguments Unmodelled {A}.

#[global] Instance outcome_ret : MRet outcome := λ A a, Ok a.
#[global] Instance outcome_bind : MBind outcome := λ A B f m,
  match m with
  | Ok a => f a
  | Throw e => Throw e
  | Unmodelled => Unmodelled
  end.

Definition M (A : Type) : Type := state → outcome (A * state).

#[global] Instance M_ret : MRet M := λ A a σ, Ok (a, σ).
#[global] Instance M_bind : MBind M := λ A B f m σ,
  match m σ with
  | Ok (a, σ') => f a σ'
  | Throw e => Throw e
  | Unmodelled => Unmodelled
  end.

Definition lift {A : Type} (o : outcome A) : M A := λ σ,
  match o with
  | Ok a => Ok (a, σ)
  | Throw e => Throw e
  | Unmodelled => Unmodelled
  end.

Definition throw {A : Type} (e : exn) : M A := λ _, Throw e.

Definition get_state : M state := λ σ, Ok (σ, σ).

(** ** Primitive operations of the language *)

Definition truthy (v : val) : bool :=
  match v with
  | VUndef | VNull => false
  | VBool b => b
  | VNum n => negb (n =? 0)
  | VStr s => negb (String.eqb s "")
  | VRef _ => true
  end.

(** [a || b] *)
Definition js_or (a b : val) : val := if truthy a then a else b.

(** [a === b] on the modelled values. *)
Definition strict_eq (a b : val) : bool := bool_decide (a = b).

(** The integers every double represents exactly: sums that stay in
    this range are exact in the code, and [String] prints these numbers
    in full decimal.  Statements about the value of a price or about the
    printed form of a number are made for numbers in this range. *)
Definition safe_int (z : Z) : Prop := -9007199254740992 ≤ z ≤ 9007199254740992.

(** [a + b]; only number addition is modelled, as addition of integers:
    that is the code's addition of doubles while the operands and the
    sum are [safe_int]. *)
Definition js_add (a b : val) : outcome val :=
  match a, b with
  | VNum x, VNum y => Ok (VNum (x + y))
  | _, _ => Unmodelled
  end.

(** [String(v)] and the conversion of template literals; a number is
    printed in decimal, as the code prints it while it is [safe_int]. *)
Definition js_String (v : val) : outcome string :=
  match v with
  | VUndef => Ok "undefined"%string
  | VNull => Ok "null"%string
  | VBool true => Ok "true"%string
  | VBool false => Ok "false"%string
  | VNum n => Ok (pretty n)
  | VStr s => Ok s
  | VRef _ => Unmodelled
  end.

Fixpoint string_drop (n : nat) (s : string) : string :=
  match n, s with
  | O, _ => s
  | S n', String _ s' => string_drop n' s'
  | S _, EmptyString => EmptyString
  end.

(** [s.slice(start)]: a negative [start] counts from the end. *)
Definition String_slice (s : string) (start : Z) : string :=
  let len := Z.of_nat (String.length s) in
  let from := if start <? 0 then Z.max (len + start) 0 else Z.min start len in
  string_drop (Z.to_nat from) s.

(** [hay.includes(needle)] *)
Fixpoint includes (needle hay : string) : bool :=
  String.prefix needle hay ||
  match hay with
  | EmptyString => false
  | String _ hay' => includes needle hay'
  end.

(** Own properties: read gives [undefined] for a missing key, write
    updates in place or appends. *)
Fixpoint assoc_get (k : string) (fs : list (string * val)) : val :=
  match fs with
  | [] => VUndef
  | (k', v) :: fs' => if String.eqb k k' then v else assoc_get k fs'
  end.

Fixpoint assoc_set (k : string) (x : val) (fs : list (string * val))
  : list (string * val) :=
  match fs with
  | [] => [(k, x)]
  | (k', v) :: fs' =>
      if String.eqb k k' then (k', x) :: fs' else (k', v) :: assoc_set k x fs'
  end.

(** A fresh object or array. *)
Definition alloc (o : obj) : M loc := λ σ,
  let l := fresh (dom (heap σ)) in
  Ok (l, with_heap (<[l := o]> (heap σ)) σ).

(** [v.k] *)
Definition get_field (v : val) (k : string) : M val := λ σ,
  match v with
  | VRef l =>
      match heap σ !! l with
      | Some (OObj _ fs) => Ok (assoc_get k fs, σ)
      | _ => Unmodelled
      end
  | VUndef | VNull => Throw (TypeError "Cannot read properties")
  | _ => Unmodelled
  end.

(** [v.k = x] *)
Definition set_field (v : val) (k : string) (x : val) : M unit := λ σ,
  match v with
  | VRef l =>
      match heap σ !! l with
      | Some (OObj c fs) =>
          Ok (tt, with_heap (<[l := OObj c (assoc_set k x fs)]> (heap σ)) σ)
      | _ => Unmodelled
      end
  | VUndef | VNull => Throw (TypeError "Cannot set properties")
  | _ => Unmodelled
  end.

(** [v.push(x)] *)
Definition array_push (v : val) (x : val) : M unit := λ σ,
  match v with
  | VRef l =>
      match heap σ !! l with
      | Some (OArr es) =>
          Ok (tt, with_heap (<[l := OArr (es ++ [x])]> (heap σ)) σ)
      | Some (OObj _ _) => Throw (TypeError "push is not a function")
      | None => Unmodelled
      end
  | VUndef | VNull => Throw (TypeError "Cannot read properties")
  | _ => Throw (TypeError "push is not a function")
  end.

(** An array literal [[x1, ..., xn]]. *)
Definition array_lit (es : list val) : M val :=
  l ← alloc (OArr es); mret (VRef l).

(** [new C(...)]: a fresh object of class [C] is bound to [this], the
    constructor body runs, and the result is the object the body returns
    if it returns one, [this] otherwise. *)
Definition construct (cls : string) (body : val → M val) : M val :=
  l ← alloc (OObj cls []);
  r ← body (VRef l);
  mret (match r with VRef _ => r | _ => VRef l end).

(** The class that constructed the object [v] refers to. *)
Definition class_of (v : val) : M string := λ σ,
  match v with
  | VRef l =>
      match heap σ !! l with
      | Some (OObj c _) => Ok (c, σ)
      | Some (OArr _) => Ok ("Array"%string, σ)
      | None => Unmodelled
      end
  | _ => Unmodelled
  end.

(** ** Singleton: AppConfig (lines 4-27) *)

Module AppConfig.

Definition get_instance : M val := λ σ, Ok (AppConfig_instance σ, σ).
Definition set_instance (v : val) : M unit := λ σ, Ok (tt, with_instance v σ).

Definition constructor (this : val) : M val :=
  inst ← get_instance;
  if truthy inst then mret inst
  else
    set_field this "currency" (VStr "INR");;
    set_field this "tax" (VNum 5);;
    set_field this "discount" (VNum 10);;
    set_instance this;;
    mret this.

(** [new AppConfig()] *)
Definition new : M val := construct "AppConfig" constructor.

Definition getInstance : M val :=
  inst ← get_instance;
  (if truthy inst then mret tt else c ← new; set_instance c);;
  get_instance.

Definition toggleCurrency (this : val) : M unit :=
  c ← get_field this "currency";
  set_field this "currency"
    (if strict_eq c (VStr "INR") then VStr "USD" else VStr "INR").

Definition toString (this : val) : M val :=
  c ← get_field this "currency";
  cs ← lift (js_String c);
  t ← get_field this "tax";
  ts ← lift (js_String t);
  d ← get_field this "discount";
  ds ← lift (js_String d);
  mret (VStr ("Currency=" +:+ cs +:+ ", Tax=" +:+ ts +:+ "%, Discount=" +:+
              ds +:+ "%")).

End AppConfig.

(** ** Factory method: UserFactory (lines 32-63) *)

Module Customer.
Definition constructor (name this : val) : M val :=
  set_field this "type" (VStr "Customer");;
  set_field this "name" name;;
  p ← array_lit [VStr "order"];
  set_field this "permissions" p;;
  mret VUndef.
Definition new (name : val) : M val := construct "Customer" (constructor name).
End Customer.

Module DeliveryPartner.
Definition constructor (name this : val) : M val :=
  set_field this "type" (VStr "DeliveryPartner");;
  set_field this "name" name;;
  p ← array_lit [VStr "deliver"];
  set_field this "permissions" p;;
  mret VUndef.
Definition new (name : val) : M val :=
  construct "DeliveryPartner" (constructor name).
End DeliveryPartner.

Module Restaurant.
Definition constructor (name this : val) : M val :=
  set_field this "type" (VStr "Restaurant");;
  set_field this "name" name;;
  p ← array_lit [VStr "menu"; VStr "receive_orders"];
  set_field this "permissions" p;;
  mret VUndef.
Definition new (name : val) : M val := construct "Restaurant" (constructor name).
End Restaurant.

Module UserFactory.
(** An omitted argument is [VUndef]. *)
Definition create (type name : val) : M val :=
  if strict_eq type (VStr "Customer") then
    Customer.new (js_or name (VStr "Anon Cust"))
  else if strict_eq type (VStr "DeliveryPartner") then
    DeliveryPartner.new (js_or name (VStr "Anon Rider"))
  else if strict_eq type (VStr "Restaurant") then
    Restaurant.new (js_or name (VStr "Anon Resto"))
  else throw (Error "Unknown type").
End UserFactory.

(** ** Abstract factory: PaymentFactory (lines 70-93) *)

Module UPI.
Definition constructor (id this : val) : M val :=
  set_field this "method" (VStr "UPI");;
  set_field this "id" id;;
  mret VUndef.
Definition new (id : val) : M val := construct "UPI" (constructor id).
Definition pay (this amount : val) : M val :=
  a ← lift (js_String amount);
  i ← get_field this "id";
  s ← lift (js_String i);
  mret (VStr ("Paid " +:+ a +:+ " via UPI (" +:+ s +:+ ")")).
End UPI.

Module Wallet.
Definition constructor (walletId this : val) : M val :=
  set_field this "method" (VStr "Wallet");;
  set_field this "walletId" walletId;;
  mret VUndef.
Definition new (walletId : val) : M val :=
  construct "Wallet" (constructor walletId).
Definition pay (this amount : val) : M val :=
  a ← lift (js_String amount);
  w ← get_field this "walletId";
  s ← lift (js_String w);
  mret (VStr ("Paid " +:+ a +:+ " via Wallet (" +:+ s +:+ ")")).
End Wallet.

Module Card.
Definition constructor (cardNo this : val) : M val :=
  set_field this "method" (VStr "Card");;
  set_field this "cardNo" cardNo;;
  mret VUndef.
Definition new (cardNo : val) : M val := construct "Card" (constructor cardNo).
Definition pay (this amount : val) : M val :=
  a ← lift (js_String amount);
  c ← get_field this "cardNo";
  s ← lift (js_String c);
  mret (VStr ("Paid " +:+ a +:+ " via Card (xxxx-" +:+ String_slice s (-4) +:+ ")")).
End Card.

(** [p.pay(amount)]: dispatch on the class of [p]. *)
Definition call_pay (p amount : val) : M val :=
  c ← class_of p;
  if String.eqb c "UPI" then UPI.pay p amount
  else if String.eqb c "Wallet" then Wallet.pay p amount
  else if String.eqb c "Card" then Card.pay p amount
  else throw (TypeError "pay is not a function").

Module PaymentFactory.
Definition create (family opts : val) : M val :=
  if strict_eq family (VStr "UPI") then
    v ← get_field opts "id"; UPI.new (js_or v (VStr "user@upi"))
  else if strict_eq family (VStr "Wallet") then
    v ← get_field opts "walletId"; Wallet.new (js_or v (VStr "WALLET123"))
  else if strict_eq family (VStr "Card") then
    v ← get_field opts "cardNo"; Card.new (js_or v (VStr "4242424242424242"))
  else throw (Error "Unknown payment family").
End PaymentFactory.

(** ** Deep copies: JSON round trip and structuredClone *)

(** The text produced by [JSON.stringify] is kept as the syntax tree it
    denotes; [JSON.parse] rebuilds fresh objects from that tree. *)
Local Unset Elimination Schemes.
Inductive json : Type :=
| JNull
| JBool (b : bool)
| JNum (n : Z)
| JStr (s : string)
| JArr (elems : list json)
| JObj (members : list (string * json)).
Local Set Elimination Schemes.

Module JSON.

(** Object members whose value is [undefined] are left out; array
    elements that are [undefined] are written as [null]. *)
Definition ser_members (f : val → outcome (option json))
  : list (string * val) → outcome (list (string * json)) :=
  fix go (fs : list (string * val)) : outcome (list (string * json)) :=
    match fs with
    | [] => Ok []
    | (k, v) :: fs' =>
        j ← f v; js ← go fs';
        mret (match j with Some j => (k, j) :: js | None => js end)
    end.

Definition ser_elems (f : val → outcome (option json))
  : list val → outcome (list json) :=
  fix go (es : list val) : outcome (list json) :=
    match es with
    | [] => Ok []
    | v :: es' =>
        j ← f v; js ← go es';
        mret (default JNull j :: js)
    end.

(** [fuel] bounds the nesting depth.  With as much fuel as the store has
    objects, it runs out only on a cyclic structure, where the language
    throws a [TypeError]. *)
Fixpoint ser (fuel : nat) (h : gmap loc obj) (v : val)
  : outcome (option json) :=
  match v with
  | VUndef => Ok None
  | VNull => Ok (Some JNull)
  | VBool b => Ok (Some (JBool b))
  | VNum n => Ok (Some (JNum n))
  | VStr s => Ok (Some (JStr s))
  | VRef l =>
      match fuel with
      | O => Throw (TypeError "Converting circular structure to JSON")
      | S fuel' =>
          match h !! l with
          | Some (OObj _ fs) =>
              ms ← ser_members (ser fuel' h) fs; mret (Some (JObj ms))
          | Some (OArr es) =>
              js ← ser_elems (ser fuel' h) es; mret (Some (JArr js))
          | None => Unmodelled
          end
      end
  end.

Definition stringify (v : val) : M (option json) := λ σ,
  match ser (size (heap σ)) (heap σ) v with
  | Ok t => Ok (t, σ)
  | Throw e => Throw e
  | Unmodelled => Unmodelled
  end.

(** Members are defined in order; a repeated key keeps its first position
    and its last value. *)
Definition define_members (kvs : list (string * val)) : list (string * val) :=
  foldl (λ acc kv, assoc_set kv.1 kv.2 acc) [] kvs.

Fixpoint revive (j : json) : M val :=
  match j with
  | JNull => mret VNull
  | JBool b => mret (VBool b)
  | JNum n => mret (VNum n)
  | JStr s => mret (VStr s)
  | JArr js => es ← mapM revive js; array_lit es
  | JObj ms =>
      kvs ← mapM (λ kj, let '(k, j') := kj in
                         v ← revive j'; mret (k, v)) ms;
      l ← alloc (OObj "Object" (define_members kvs));
      mret (VRef l)
  end.

(** [JSON.parse(undefined)] is a syntax error. *)
Definition parse (t : option json) : M val :=
  match t with
  | Some j => revive j
  | None => throw (SyntaxError "not valid JSON")
  end.

End JSON.

(** [structuredClone] copies an object graph, keeping sharing and cycles:
    [memo] maps each source object already met to its copy.  Copies are
    plain objects. *)
Definition store (l : loc) (o : obj) : M unit := λ σ,
  Ok (tt, with_heap (<[l := o]> (heap σ)) σ).

Definition read (l : loc) : M obj := λ σ,
  match heap σ !! l with
  | Some o => Ok (o, σ)
  | None => Unmodelled
  end.

Definition clone_members (f : val → gmap loc loc → M (val * gmap loc loc))
  : list (string * val) → gmap loc loc
    → M (list (string * val) * gmap loc loc) :=
  fix go fs memo :=
    match fs with
    | [] => mret ([], memo)
    | (k, v) :: fs' =>
        r ← f v memo; rs ← go fs' r.2;
        mret ((k, r.1) :: rs.1, rs.2)
    end.

Definition clone_elems (f : val → gmap loc loc → M (val * gmap loc loc))
  : list val → gmap loc loc → M (list val * gmap loc loc) :=
  fix go es memo :=
    match es with
    | [] => mret ([], memo)
    | v :: es' =>
        r ← f v memo; rs ← go es' r.2;
        mret (r.1 :: rs.1, rs.2)
    end.

(** Every source object is copied once, so as much [fuel] as the store
    has objects is never used up. *)
Fixpoint sclone (fuel : nat) (v : val) (memo : gmap loc loc)
  : M (val * gmap loc loc) :=
  match v with
  | VRef l =>
      match memo !! l with
      | Some l' => mret (VRef l', memo)
      | None =>
          match fuel with
          | O => lift Unmodelled
          | S fuel' =>
              o ← read l;
              match o with
              | OObj _ fs =>
                  l' ← alloc (OObj "Object" []);
                  r ← clone_members (sclone fuel') fs (<[l := l']> memo);
                  store l' (OObj "Object" r.1);;
                  mret (VRef l', r.2)
              | OArr es =>
                  l' ← alloc (OArr []);
                  r ← clone_elems (sclone fuel') es (<[l := l']> memo);
                  store l' (OArr r.1);;
                  mret (VRef l', r.2)
              end
          end
      end
  | _ => mret (v, memo)
  end.

Definition structuredClone (v : val) : M val :=
  σ ← get_state;
  r ← sclone (size (heap σ)) v ∅;
  mret r.1.

(** ** Builder: OrderBuilder (lines 98-127) *)

Module Order.
Definition constructor (this : val) : M val :=
  set_field this "size" VNull;;
  t ← array_lit [];
  set_field this "toppings" t;;
  set_field this "notes" (VStr "");;
  set_field this "price" (VNum 0);;
  mret VUndef.
Definition new : M val := construct "Order" constructor.
End Order.

Module OrderBuilder.

Definition reset (this : val) : M val :=
  o ← Order.new;
  set_field this "order" o;;
  mret this.

Definition constructor (this : val) : M val :=
  reset this;; mret VUndef.

Definition new : M val := construct "OrderBuilder" constructor.

Definition size_price (size : val) : Z :=
  if strict_eq size (VStr "Extra Large") then 300
  else if strict_eq size (VStr "Large") then 200
  else 120.

Definition setSize (this size : val) : M val :=
  o ← get_field this "order";
  set_field o "size" size;;
  o ← get_field this "order";
  p ← get_field o "price";
  p' ← lift (js_add p (VNum (size_price size)));
  set_field o "price" p';;
  mret this.

Definition addTopping (this t : val) : M val :=
  o ← get_field this "order";
  ts ← get_field o "toppings";
  array_push ts t;;
  o ← get_field this "order";
  p ← get_field o "price";
  p' ← lift (js_add p (VNum 30));
  set_field o "price" p';;
  mret this.

Definition setNotes (this n : val) : M val :=
  o ← get_field this "order";
  set_field o "notes" n;;
  mret this.

Definition build (this : val) : M val :=
  o ← get_field this "order";
  txt ← JSON.stringify o;
  finished ← JSON.parse txt;
  reset this;;
  mret finished.

End OrderBuilder.

(** ** Prototype: clone (lines 132-136) *)

Definition clone (obj : val) : M val :=
  σ ← get_state;
  if host_structuredClone σ then structuredClone obj
  else txt ← JSON.stringify obj; JSON.parse txt.

(** ** Reading records back from the store *)

(** The order a reference denotes: [{size, toppings, notes, price}] with
    the topping array read through its reference. *)
Record order_rec : Type := OrderRec {
  ord_size : option string;
  ord_toppings : list string;
  ord_notes : string;
  ord_price : Z
}.

#[global] Instance order_rec_eq_dec : EqDecision order_rec.
Proof. solve_decision. Defined.

Definition as_size (v : val) : option (option string) :=
  match v with
  | VNull => Some None
  | VStr s => Some (Some s)
  | _ => None
  end.

Definition as_str (v : val) : option string :=
  match v with VStr s => Some s | _ => None end.

Definition as_num (v : val) : option Z :=
  match v with VNum n => Some n | _ => None end.

Definition as_ref (v : val) : option loc :=
  match v with VRef l => Some l | _ => None end.

(** Own properties of the object [v] refers to. *)
Definition fields_of (h : gmap loc obj) (v : val)
  : option (list (string * val)) :=
  l ← as_ref v;
  match h !! l with
  | Some (OObj _ fs) => Some fs
  | _ => None
  end.

Definition elems_of (h : gmap loc obj) (v : val) : option (list val) :=
  l ← as_ref v;
  match h !! l with
  | Some (OArr es) => Some es
  | _ => None
  end.

Definition field_of (h : gmap loc obj) (v : val) (k : string) : option val :=
  assoc_get k <$> fields_of h v.

Definition order_keys : list string := ["size"; "toppings"; "notes"; "price"]%string.

Definition read_order (h : gmap loc obj) (v : val) : option order_rec :=
  fs ← fields_of h v;
  guard (fs.*1 = order_keys);;
  sz ← as_size (assoc_get "size" fs);
  es ← elems_of h (assoc_get "toppings" fs);
  ts ← mapM as_str es;
  n ← as_str (assoc_get "notes" fs);
  p ← as_num (assoc_get "price" fs);
  Some (OrderRec sz ts n p).

(** The locations an order occupies: the record and its topping array. *)
Definition order_locs (h : gmap loc obj) (v : val) : list loc :=
  match as_ref v, (field_of h v "toppings" ≫= as_ref) with
  | Some l, Some t => [l; t]
  | _, _ => []
  end.

(** The idle order of a fresh or reset builder. *)
Definition idle : order_rec := OrderRec None [] "" 0.

(** The shared settings [{currency, tax, discount}]. *)
Record config_rec : Type := ConfigRec {
  cfg_currency : string;
  cfg_tax : Z;
  cfg_discount : Z
}.

Definition config_keys : list string := ["currency"; "tax"; "discount"]%string.

Definition read_config (h : gmap loc obj) (v : val) : option config_rec :=
  fs ← fields_of h v;
  guard (fs.*1 = config_keys);;
  c ← as_str (assoc_get "currency" fs);
  t ← as_num (assoc_get "tax" fs);
  d ← as_num (assoc_get "discount" fs);
  Some (ConfigRec c t d).

(** ** Sequences of calls *)

(** Calls a client can make on one assembler, with string arguments. *)
Inductive op : Type :=
| Reset
| SetSize (s : string)
| AddTopping (t : string)
| SetNotes (n : string)
| Build.

Definition run_op (b : val) (o : op) : M val :=
  match o with
  | Reset => OrderBuilder.reset b
  | SetSize s => OrderBuilder.setSize b (VStr s)
  | AddTopping t => OrderBuilder.addTopping b (VStr t)
  | SetNotes n => OrderBuilder.setNotes b (VStr n)
  | Build => OrderBuilder.build b
  end.

(** Runs the calls in order and collects what each one returned. *)
Definition run_ops (b : val) (ops : list op) : M (list val) :=
  mapM (run_op b) ops.

(** Uses of the shared configuration, as the page makes them
    (lines 147-162): fetch it, construct "another" one, or fetch it and
    toggle the currency through the fetched reference. *)
Inductive cfg_op : Type :=
| GetInstance
| NewAppConfig
| ToggleCurrency.

#[global] Instance cfg_op_eq_dec : EqDecision cfg_op.
Proof. solve_decision. Defined.

Definition run_cfg_op (o : cfg_op) : M val :=
  match o with
  | GetInstance => AppConfig.getInstance
  | NewAppConfig => AppConfig.new
  | ToggleCurrency =>
      c1 ← AppConfig.getInstance;
      AppConfig.toggleCurrency c1;;
      mret c1
  end.

Definition run_cfg_ops (ops : list cfg_op) : M (list val) :=
  mapM run_cfg_op ops.

Definition toggles (ops : list cfg_op) : nat :=
  length (filter (λ o, o = ToggleCurrency) ops).

(** ** Shapes in the store *)

Definition size_val (s : option string) : val := from_option VStr VNull s.

Definition order_fields (r : order_rec) (t : loc) : list (string * val) :=
  [("size"%string, size_val (ord_size r));
   ("toppings"%string, VRef t);
   ("notes"%string, VStr (ord_notes r));
   ("price"%string, VNum (ord_price r))].

(** An order [r] sits at [l], with its topping array at [t]. *)
Definition order_at (h : gmap loc obj) (cls : string) (l t : loc)
  (r : order_rec) : Prop :=
  h !! l = Some (OObj cls (order_fields r t)) ∧
  h !! t = Some (OArr (VStr <$> ord_toppings r)).

(** The assembler [b] holds the working order [r] at [o]. *)
Definition builder_at (h : gmap loc obj) (b o t : loc) (r : order_rec) : Prop :=
  h !! b = Some (OObj "OrderBuilder" [("order"%string, VRef o)]) ∧
  order_at h "Order" o t r.

(** What one call does to the working order. *)
Definition apply_op (o : op) (r : order_rec) : order_rec :=
  match o with
  | Reset | Build => idle
  | SetSize s =>
      OrderRec (Some s) (ord_toppings r) (ord_notes r)
        (ord_price r + OrderBuilder.size_price (VStr s))
  | AddTopping t =>
      OrderRec (ord_size r) (ord_toppings r ++ [t]) (ord_notes r)
        (ord_price r + 30)
  | SetNotes n =>
      OrderRec (ord_size r) (ord_toppings r) n (ord_price r)
  end.

(** The tree [JSON.stringify] writes for an order. *)
Definition size_json (s : option string) : json := from_option JStr JNull s.

Definition order_json (r : order_rec) : json :=
  JObj [("size"%string, size_json (ord_size r));
        ("toppings"%string, JArr (JStr <$> ord_toppings r));
        ("notes"%string, JStr (ord_notes r));
        ("price"%string, JNum (ord_price r))].

(** [σ'] extends [σ] with a copy of [r] at the fresh locations [s], [st]. *)
Definition copied (σ σ' : state) (r : order_rec) (s st : loc) : Prop :=
  heap σ' = <[s := OObj "Object" (order_fields r st)]>
              (<[st := OArr (VStr <$> ord_toppings r)]> (heap σ)) ∧
  AppConfig_instance σ' = AppConfig_instance σ ∧
  host_structuredClone σ' = host_structuredClone σ ∧
  heap σ !! s = None ∧ heap σ !! st = None ∧ s ≠ st.

(** ** Scenarios *)

(** [reset().setSize('Large').addTopping('Olives').addTopping('Cheese').build()]
    called on the assembler [b]. *)
Definition chain_large_olives_cheese (b : val) : M val :=
  b1 ← OrderBuilder.reset b;
  b2 ← OrderBuilder.setSize b1 (VStr "Large");
  b3 ← OrderBuilder.addTopping b2 (VStr "Olives");
  b4 ← OrderBuilder.addTopping b3 (VStr "Cheese");
  OrderBuilder.build b4.

(** What the page does to the last clone (lines 211-212). *)
Definition modifyClone (c : val) : M unit :=
  ts ← get_field c "toppings";
  array_push ts (VStr "Extra Cheese");;
  p ← get_field c "price";
  p' ← lift (js_add p (VNum 30));
  set_field c "price" p'.

(** The working order of the assembler [b]. *)
Definition current_order (h : gmap loc obj) (b : val) : option order_rec :=
  field_of h b "order" ≫= read_order h.

(** ** Participants, payment methods and errors *)

(** The participant a reference denotes: [{type, name, permissions}] with
    the permission array read through its reference. *)
Record participant_rec : Type := ParticipantRec {
  p_type : val;
  p_name : val;
  p_permissions : list val
}.

Definition participant_keys : list string :=
  ["type"; "name"; "permissions"]%string.

Definition read_participant (h : gmap loc obj) (v : val)
  : option participant_rec :=
  fs ← fields_of h v;
  guard (fs.*1 = participant_keys);;
  ps ← elems_of h (assoc_get "permissions" fs);
  Some (ParticipantRec (assoc_get "type" fs) (assoc_get "name" fs) ps).

(** The specification's names for the two errors the factories throw
    (lines 60 and 90). *)
Definition UnknownCategory : exn := Error "Unknown type".
Definition UnknownPaymentFamily : exn := Error "Unknown payment family".

Definition known_categories : list val :=
  [VStr "Customer"; VStr "DeliveryPartner"; VStr "Restaurant"].

Definition known_families : list val :=
  [VStr "UPI"; VStr "Wallet"; VStr "Card"].

(** The value of option [key] in a bag with properties [fs], or [dflt]
    when the bag has no such key. *)
Definition option_or_default (key dflt : string) (fs : list (string * val))
  : val :=
  if decide (key ∈ fs.*1) then assoc_get key fs else VStr dflt.

(** "[create(family, opts)] reads the option [key], with default [dflt]":
    the method it creates holds that value in its property [field]. *)
Definition reads_option (family key dflt field : string) : Prop :=
  ∀ (σ : state) (l : loc) (cls : string) (fs : list (string * val)),
    heap σ !! l = Some (OObj cls fs) →
    ∃ p σ',
      PaymentFactory.create (VStr family) (VRef l) σ = Ok (p, σ') ∧
      field_of (heap σ') p field = Some (option_or_default key dflt fs).

(** The shared configuration sits at [c] with currency [cur] and the
    default rates. *)
Definition config_at (σ : state) (c : loc) (cur : string) : Prop :=
  AppConfig_instance σ = VRef c ∧
  heap σ !! c =
    Some (OObj "AppConfig" [("currency"%string, VStr cur);
                            ("tax"%string, VNum 5);
                            ("discount"%string, VNum 10)]).

Definition flip (cur : string) : string :=
  if decide (cur = "INR"%string) then "USD"%string else "INR"%string.

(** [create(type, name)] succeeds and the participant it returns reads [r]. *)
Definition creates_participant (σ : state) (type name : val)
  (r : participant_rec) : Prop :=
  ∃ p σ', UserFactory.create type name σ = Ok (p, σ') ∧
          read_participant (heap σ') p = Some r.

(** [create(family, opts)] succeeds and the method it returns holds [v]
    in its property [field]. *)
Definition creates_payment (σ : state) (family opts : val) (field : string)
  (v : val) : Prop :=
  ∃ p σ', PaymentFactory.create family opts σ = Ok (p, σ') ∧
          field_of (heap σ') p field = Some v.

(** The receipt of [create(family, opts).pay(amount)]. *)
Definition receipt (family opts amount : val) : M val :=
  p ← PaymentFactory.create family opts;
  call_pay p amount.

(** ** Sample states *)

(** A store holding an assembler (1, with its idle order at 2 and 3), an
    options bag [{cardNumber:'4242424242424242'}] (4), a built order (5,
    6) and the shared configuration after one toggle (7). *)
Definition sample_state : state :=
  State
    (<[1%positive := OObj "OrderBuilder" [("order"%string, VRef 2)]]>
    (<[2%positive := OObj "Order" (order_fields idle 3)]>
    (<[3%positive := OArr []]>
    (<[4%positive := OObj "Object"
                       [("cardNumber"%string, VStr "4242424242424242")]]>
    (<[5%positive := OObj "Object"
                       (order_fields
                          (OrderRec (Some "Large") ["Olives"] "" 230) 6)]>
    (<[6%positive := OArr [VStr "Olives"]]>
    (<[7%positive := OObj "AppConfig" [("currency"%string, VStr "USD");
                                       ("tax"%string, VNum 5);
                                       ("discount"%string, VNum 10)]]>
       ∅)))))))
    (VRef 7) false.

(** A store holding only the options bag
    [{cardNumber:'1111222233334444'}]. *)
Definition bag_state : state :=
  State
    (<[1%positive := OObj "Object"
                       [("cardNumber"%string, VStr "1111222233334444")]]> ∅)
    VUndef false.

(** ** The page's handlers (lines 178-199)

    The values the handlers read from the form are parameters; what they
    write to the page is left out. *)

(** The "build order" click: the order it stores in [lastBuiltOrder]. *)
Definition buildOrder_click (orderBuilder size notes : val)
  (toppings : list val) : M val :=
  b ← OrderBuilder.reset orderBuilder;
  OrderBuilder.setSize b size;;
  mapM (λ t, OrderBuilder.addTopping orderBuilder t) toppings;;
  OrderBuilder.setNotes orderBuilder notes;;
  OrderBuilder.build orderBuilder.

(** The "make payment" click: the message it logs. *)
Definition makePayment_click (family : val) : M val :=
  opts ← alloc (OObj "Object" []);
  p ← PaymentFactory.create family (VRef opts);
  res ← call_pay p (VNum 199);
  f ← lift (js_String family);
  r ← lift (js_String res);
  mret (VStr ("Factory(" +:+ f +:+ ") -> " +:+ r)).

(** ** Accounting of a call sequence *)

(** The base price of a size string. *)
Definition base_price (s : string) : Z :=
  if decide (s = "Extra Large"%string) then 300
  else if decide (s = "Large"%string) then 200
  else 120.

(** What a call adds to the price. *)
Definition charge (o : op) : Z :=
  match o with
  | SetSize s => base_price s
  | AddTopping _ => 30
  | _ => 0
  end.

Definition total_charge (ops : list op) : Z := foldr (λ o z, charge o + z) 0 ops.

(** The toppings a call sequence adds, in order. *)
Definition added_toppings (ops : list op) : list string :=
  omap (λ o, match o with AddTopping t => Some t | _ => None end) ops.

(** Calls that keep the working order (neither [reset] nor [build]). *)
Definition keeps_order (o : op) : bool :=
  match o with
  | Reset | Build => false
  | _ => true
  end.

(** A store holding a card (1) and an empty options bag (2). *)
Definition payment_state : state :=
  State
    (<[1%positive := OObj "Card" [("method"%string, VStr "Card");
                                  ("cardNo"%string, VStr "5105105105105100")]]>
    (<[2%positive := OObj "Object" []]> ∅))
    VUndef true.

(** A store holding a configuration whose currency was set to EUR by
    hand. *)
Definition euro_state : state :=
  State
    (<[1%positive := OObj "AppConfig" [("currency"%string, VStr "EUR");
                                       ("tax"%string, VNum 5);
                                       ("discount"%string, VNum 10)]]> ∅)
    (VRef 1) false.

(** Stores holding only an options bag with a card number: a full one and
    a two-digit one. *)
Definition card_bag_state : state :=
  State
    (<[1%positive := OObj "Object"
                       [("cardNo"%string, VStr "5105105105105100")]]> ∅)
    VUndef false.

Definition short_card_state : state :=
  State (<[1%positive := OObj "Object" [("cardNo"%string, VStr "42")]]> ∅)
    VUndef false.

(** ** Statements that are put to the test *)

(** "[setSize(s)] stores [s] and adds [z] to the price", on every
    assembler whose price and new price are safe integers. *)
Definition setSize_adds (s : string) (z : Z) : Prop :=
  ∀ (σ : state) (b o t : loc) (r : order_rec),
    builder_at (heap σ) b o t r →
    safe_int (ord_price r) → safe_int (ord_price r + z) →
    ∃ σ',
      OrderBuilder.setSize (VRef b) (VStr s) σ = Ok (VRef b, σ') ∧
      current_order (heap σ') (VRef b) =
        Some (OrderRec (Some s) (ord_toppings r) (ord_notes r)
                (ord_price r + z)).

(** "[PaymentFactory.create] fails for an unknown family and for nothing
    else", whatever is passed as options. *)
Definition create_fails_only_for_unknown_family : Prop :=
  ∀ (σ : state) (family opts : val) (e : exn),
    PaymentFactory.create family opts σ = Throw e →
    family ∉ known_families.

(** * Proofs *)

(** ** Running the primitives *)

Lemma alloc_run (o : obj) (σ : state) :
  ∃ l, alloc o σ = Ok (l, with_heap (<[l := o]> (heap σ)) σ) ∧
       heap σ !! l = None.
Proof.
  exists (fresh (dom (heap σ))). split; [done|].
  apply not_elem_of_dom, is_fresh.
Qed.

Opaque alloc.

Lemma bind_run {A B : Type} (m : M A) (f : A → M B) (σ : state) :
  (m ≫= f) σ =
  match m σ with
  | Ok (a, σ') => f a σ'
  | Throw e => Throw e
  | Unmodelled => Unmodelled
  end.
Proof. done. Qed.

Lemma with_heap_with_heap (h h' : gmap loc obj) (σ : state) :
  with_heap h (with_heap h' σ) = with_heap h σ.
Proof. done. Qed.

Lemma with_heap_eq (h h' : gmap loc obj) (σ : state) :
  h = h' → with_heap h σ = with_heap h' σ.
Proof. by intros ->. Qed.

(** *** Lists of strings pass through the copying functions unchanged *)

Lemma mapM_cons {A B : Type} (f : A → M B) (a : A) (l : list A) :
  mapM f (a :: l) = (b ← f a; bs ← mapM f l; mret (b :: bs)).
Proof. done. Qed.

Lemma ser_elems_cons (f : val → outcome (option json)) (v : val)
    (es : list val) :
  JSON.ser_elems f (v :: es) =
  (j ← f v; js ← JSON.ser_elems f es; mret (default JNull j :: js)).
Proof. done. Qed.

Lemma ser_elems_strs (f : val → outcome (option json)) (ts : list string) :
  (∀ s, f (VStr s) = Ok (Some (JStr s))) →
  JSON.ser_elems f (VStr <$> ts) = Ok (JStr <$> ts).
Proof.
  intros Hf. induction ts as [|x ts IH]; [done|].
  by rewrite fmap_cons, ser_elems_cons, Hf, IH.
Qed.

Lemma revive_strs (ts : list string) :
  mapM JSON.revive (JStr <$> ts) = mret (VStr <$> ts).
Proof.
  induction ts as [|x ts IH]; [done|].
  by rewrite fmap_cons, mapM_cons, IH.
Qed.

Lemma clone_elems_cons (f : val → gmap loc loc → M (val * gmap loc loc))
    (v : val) (es : list val) (memo : gmap loc loc) :
  clone_elems f (v :: es) memo =
  (r ← f v memo; rs ← clone_elems f es r.2; mret (r.1 :: rs.1, rs.2)).
Proof. done. Qed.

Lemma clone_elems_strs (n : nat) (ts : list string) (memo : gmap loc loc)
    (σ : state) :
  clone_elems (sclone n) (VStr <$> ts) memo σ = Ok ((VStr <$> ts, memo), σ).
Proof.
  induction ts as [|x ts IH]; [done|].
  rewrite fmap_cons, clone_elems_cons, bind_run.
  replace (sclone n (VStr x) memo σ) with (Ok ((VStr x, memo), σ))
    by (by destruct n).
  cbv beta iota. cbn [fst snd]. by rewrite bind_run, IH.
Qed.

(** *** Symbolic execution of straight-line code *)

Ltac heap_step :=
  match goal with
  | |- context [ <[?l := _]> _ !! ?l ] => rewrite lookup_insert_eq
  | |- context [ <[?l := _]> _ !! ?l' ] =>
      rewrite (lookup_insert_ne _ l l') by congruence
  | H : ?h !! ?l = _ |- context [ ?h !! ?l ] => rewrite H
  | H : AppConfig_instance ?s = _ |- context [ AppConfig_instance ?s ] =>
      rewrite H
  end.

Ltac alloc_step :=
  match goal with
  | |- context [ alloc ?o ?s ] =>
      let l := fresh "l" in
      let E := fresh "E" in
      let F := fresh "F" in
      destruct (alloc_run o s) as (l & E & F);
      rewrite E; clear E; simpl in F;
      repeat (apply lookup_insert_None in F as [F ?])
  end.

Ltac unfold_prims :=
  repeat progress
    unfold mbind, M_bind, mret, M_ret, construct, array_lit, get_field,
      set_field, array_push, store, read, class_of, lift, throw, get_state,
      js_add.

Ltac run :=
  repeat (unfold_prims; simpl;
          first [ heap_step | alloc_step | rewrite with_heap_with_heap
                | rewrite lookup_empty | rewrite clone_elems_strs ]);
  unfold_prims; simpl.

(** ** The assembler's methods on a well-formed assembler *)

Lemma Order_new_run (σ : state) :
  ∃ o t,
    Order.new σ =
      Ok (VRef o,
          with_heap (<[o := OObj "Order" (order_fields idle t)]>
                       (<[t := OArr []]> (heap σ))) σ) ∧
    heap σ !! o = None ∧ heap σ !! t = None ∧ o ≠ t.
Proof.
  unfold Order.new, Order.constructor. run.
  exists l, l0. split_and!; [|done..].
  do 2 f_equal. apply with_heap_eq.
  rewrite !insert_insert_eq.
  rewrite (insert_insert_ne (heap σ) l0 l), insert_insert_eq by done.
  done.
Qed.

Section assembler.

Context (σ : state) (b o t : loc) (r : order_rec).
Hypothesis Hat : builder_at (heap σ) b o t r.

Lemma reset_run :
  ∃ o' t',
    OrderBuilder.reset (VRef b) σ =
      Ok (VRef b,
          with_heap (<[b := OObj "OrderBuilder" [("order"%string, VRef o')]]>
                       (<[o' := OObj "Order" (order_fields idle t')]>
                          (<[t' := OArr []]> (heap σ)))) σ) ∧
    heap σ !! o' = None ∧ heap σ !! t' = None ∧ o' ≠ t'.
Proof.
  destruct Hat as (Hb & Ho & Ht).
  destruct (Order_new_run σ) as (o' & t' & E & Ho' & Ht' & Hne).
  exists o', t'. split_and!; [|done..].
  unfold OrderBuilder.reset. unfold_prims. rewrite E. run. done.
Qed.

Lemma setSize_run (s : string) :
  OrderBuilder.setSize (VRef b) (VStr s) σ =
    Ok (VRef b,
        with_heap (<[o := OObj "Order"
                            (order_fields (apply_op (SetSize s) r) t)]>
                     (heap σ)) σ).
Proof.
  destruct Hat as (Hb & Ho & Ht).
  unfold OrderBuilder.setSize. run.
  by rewrite insert_insert_eq.
Qed.

Lemma addTopping_run (x : string) :
  OrderBuilder.addTopping (VRef b) (VStr x) σ =
    Ok (VRef b,
        with_heap (<[o := OObj "Order"
                            (order_fields (apply_op (AddTopping x) r) t)]>
                     (<[t := OArr (VStr <$> (ord_toppings r ++ [x]))]>
                        (heap σ))) σ).
Proof.
  destruct Hat as (Hb & Ho & Ht).
  unfold OrderBuilder.addTopping. run.
  by rewrite fmap_app.
Qed.

Lemma setNotes_run (n : string) :
  OrderBuilder.setNotes (VRef b) (VStr n) σ =
    Ok (VRef b,
        with_heap (<[o := OObj "Order"
                            (order_fields (apply_op (SetNotes n) r) t)]>
                     (heap σ)) σ).
Proof.
  destruct Hat as (Hb & Ho & Ht).
  unfold OrderBuilder.setNotes. run. done.
Qed.

End assembler.

(** ** Deep copies of an order *)

Lemma size_two (h : gmap loc obj) (l t : loc) (x y : obj) :
  h !! l = Some x → h !! t = Some y → l ≠ t → ∃ n, size h = S (S n).
Proof.
  intros Hl Ht Hne.
  rewrite <- (insert_delete_id h l x) by done.
  rewrite map_size_insert_None by apply lookup_delete_eq.
  assert (delete l h !! t = Some y) as Hd by (by rewrite lookup_delete_ne).
  rewrite <- (insert_delete_id (delete l h) t y) by done.
  rewrite map_size_insert_None by apply lookup_delete_eq.
  eauto.
Qed.




Lemma ser_order (h : gmap loc obj) (cls : string) (l t : loc) (r : order_rec)
    (n : nat) :
  order_at h cls l t r →
  JSON.ser (S (S n)) h (VRef l) = Ok (Some (order_json r)).
Proof.
  intros [Hl Ht]. simpl. rewrite Hl. simpl. rewrite Ht.
  rewrite ser_elems_strs by (by destruct n).
  by destruct r as [[s|] ts nt p].
Qed.

Lemma stringify_order (σ : state) (cls : string) (l t : loc) (r : order_rec) :
  order_at (heap σ) cls l t r →
  JSON.stringify (VRef l) σ = Ok (Some (order_json r), σ).
Proof.
  intros Hat. destruct (size_two (heap σ) l t _ _ (proj1 Hat) (proj2 Hat))
    as [n Hn].
  { destruct Hat; congruence. }
  unfold JSON.stringify. rewrite Hn.
  by rewrite (ser_order _ _ _ _ _ _ Hat).
Qed.



Lemma revive_order (r : order_rec) (σ : state) :
  ∃ s st σ', JSON.revive (order_json r) σ = Ok (VRef s, σ') ∧
             copied σ σ' r s st.
Proof.
  unfold order_json.
  change (JSON.revive (JObj ?ms)) with
    (kvs ← mapM (λ kj : string * json, let '(k, j') := kj in
                         v ← JSON.revive j'; mret (k, v)) ms;
      l ← alloc (OObj "Object" (JSON.define_members kvs));
      mret (VRef l)).
  rewrite !mapM_cons.
  change (JSON.revive (JArr ?js)) with
    (es ← mapM JSON.revive js; array_lit es).
  rewrite revive_strs.
  destruct r as [[sz|] ts nt p]; run;
    (eexists l0, l, _; split; [done|]; by split_and!).
Qed.



Lemma sclone_order (σ : state) (cls : string) (l t : loc) (r : order_rec)
    (n : nat) :
  order_at (heap σ) cls l t r →
  ∃ s st σ' memo, sclone (S (S n)) (VRef l) ∅ σ = Ok ((VRef s, memo), σ') ∧
                  copied σ σ' r s st.
Proof.
  intros [Hl Ht].
  assert (t ≠ l) as Hne by congruence.
  destruct r as [[sz|] ts nt p]; simpl in *;
    unfold order_fields; simpl; run;
    (eexists l0, l1, _, _; split; [done|]; split_and!; simpl; try done;
     by rewrite insert_insert_eq, (insert_insert_ne _ l1 l0),
          insert_insert_eq by done).
Qed.

(** Both branches of [clone] copy an order to fresh locations. *)
Lemma clone_run (σ : state) (cls : string) (l t : loc) (r : order_rec) :
  order_at (heap σ) cls l t r →
  ∃ s st σ', clone (VRef l) σ = Ok (VRef s, σ') ∧ copied σ σ' r s st.
Proof.
  intros Hat.
  destruct (size_two (heap σ) l t _ _ (proj1 Hat) (proj2 Hat)) as [n Hn].
  { destruct Hat; congruence. }
  unfold clone. rewrite bind_run. simpl.
  destruct (host_structuredClone σ) eqn:Hsc.
  - destruct (sclone_order σ cls l t r n Hat) as (s & st & σ' & memo & E & Hc).
    exists s, st, σ'. split; [|done].
    unfold structuredClone. rewrite bind_run. simpl.
    by rewrite bind_run, Hn, E.
  - destruct (revive_order r σ) as (s & st & σ' & E & Hc).
    exists s, st, σ'. split; [|done].
    by rewrite bind_run, (stringify_order _ _ _ _ _ Hat).
Qed.

Lemma copied_order_at (σ σ' : state) (r : order_rec) (s st : loc) :
  copied σ σ' r s st → order_at (heap σ') "Object" s st r.
Proof.
  intros (-> & _ & _ & _ & _ & Hne). split.
  - by rewrite lookup_insert_eq.
  - by rewrite lookup_insert_ne, lookup_insert_eq.
Qed.

Lemma copied_frame (σ σ' : state) (r : order_rec) (s st l : loc) (x : obj) :
  copied σ σ' r s st → heap σ !! l = Some x →
  heap σ' !! l = Some x ∧ l ≠ s ∧ l ≠ st.
Proof.
  intros (-> & _ & _ & Hs & Hst & Hne) Hl.
  assert (l ≠ s) by congruence. assert (l ≠ st) by congruence.
  by rewrite !lookup_insert_ne.
Qed.

Lemma copied_builder_at (σ σ' : state) (r r' : order_rec) (s st b o t : loc) :
  copied σ σ' r s st → builder_at (heap σ) b o t r' →
  builder_at (heap σ') b o t r'.
Proof.
  intros Hc (Hb & Ho & Ht).
  repeat split; eapply copied_frame; eauto.
Qed.

Lemma build_run (σ : state) (b o t : loc) (r : order_rec) :
  builder_at (heap σ) b o t r →
  ∃ s st o' t' σ1 σ',
    OrderBuilder.build (VRef b) σ = Ok (VRef s, σ') ∧
    copied σ σ1 r s st ∧
    heap σ' = <[b := OObj "OrderBuilder" [("order"%string, VRef o')]]>
                (<[o' := OObj "Order" (order_fields idle t')]>
                   (<[t' := OArr []]> (heap σ1))) ∧
    AppConfig_instance σ' = AppConfig_instance σ ∧
    host_structuredClone σ' = host_structuredClone σ ∧
    heap σ1 !! o' = None ∧ heap σ1 !! t' = None ∧ o' ≠ t'.
Proof.
  intros Hat. pose proof Hat as (Hb & Ho).
  destruct (revive_order r σ) as (s & st & σ1 & E & Hc).
  pose proof (copied_builder_at _ _ _ _ _ _ _ _ _ Hc Hat) as Hat1.
  destruct (reset_run σ1 b o t r Hat1) as (o' & t' & E' & Ho' & Ht' & Hne).
  eexists s, st, o', t', σ1, _. split.
  - unfold OrderBuilder.build. rewrite bind_run.
    unfold get_field. rewrite Hb. simpl.
    rewrite bind_run, (stringify_order _ _ _ _ _ Ho).
    unfold JSON.parse. rewrite bind_run, E, bind_run, E'. done.
  - pose proof Hc as (_ & Hi & Hh & _). by split_and!; simpl.
Qed.

(** ** Reading an order back *)

Lemma mapM_as_str (ts : list string) : mapM as_str (VStr <$> ts) = Some ts.
Proof.
  apply mapM_Some. induction ts; constructor; done.
Qed.

Lemma mapM_as_str_inv (es : list val) (ts : list string) :
  mapM as_str es = Some ts → es = VStr <$> ts.
Proof.
  intros H%mapM_Some_1. induction H as [|v s es ts Hv Hrest IH]; [done|].
  by destruct v; simplify_eq/=.
Qed.

Lemma read_order_at (h : gmap loc obj) (cls : string) (l t : loc)
    (r : order_rec) :
  order_at h cls l t r → read_order h (VRef l) = Some r.
Proof.
  intros [Hl Ht]. unfold read_order, fields_of, elems_of. simpl.
  rewrite Hl. simpl. rewrite Ht. simpl. rewrite mapM_as_str.
  by destruct r as [[sz|] ts nt p].
Qed.

Lemma order_locs_at (h : gmap loc obj) (cls : string) (l t : loc)
    (r : order_rec) :
  order_at h cls l t r → order_locs h (VRef l) = [l; t].
Proof.
  intros [Hl Ht]. unfold order_locs, field_of, fields_of. simpl.
  by rewrite Hl.
Qed.

Lemma read_order_inv (h : gmap loc obj) (v : val) (r : order_rec) :
  read_order h v = Some r →
  ∃ cls l t, v = VRef l ∧ order_at h cls l t r.
Proof.
  unfold read_order, fields_of, elems_of. intros H.
  destruct v as [| | | | |l]; try done. simpl in H.
  destruct (h !! l) as [[cls fs|]|] eqn:Hl; try done. simpl in H.
  case_guard as Hk; [|done]. simpl in H.
  destruct fs as [|[k1 v1] [|[k2 v2] [|[k3 v3] [|[k4 v4] [|]]]]];
    try done.
  unfold order_keys in Hk. simpl in Hk. simplify_eq. simpl in H.
  destruct (as_size v1) as [sz|] eqn:H1; [|done]. simpl in H.
  destruct v2 as [| | | | |t]; try done. simpl in H.
  destruct (h !! t) as [[|es]|] eqn:Ht; try done. simpl in H.
  destruct (mapM as_str es) as [ts|] eqn:H2; [|done]. simpl in H.
  destruct v3 as [| | | |nt|]; try done. simpl in H.
  destruct v4 as [| | |p| |]; try done. simpl in H.
  simplify_eq. exists cls, l, t. split; [done|].
  apply mapM_as_str_inv in H2 as ->.
  split; [|done]. rewrite Hl. unfold order_fields. simpl.
  by destruct v1; simplify_eq/=.
Qed.

(** Reading an order only looks at its two locations. *)
Lemma order_at_frame (h h' : gmap loc obj) (cls : string) (l t : loc)
    (r : order_rec) :
  order_at h cls l t r → h' !! l = h !! l → h' !! t = h !! t →
  order_at h' cls l t r.
Proof. intros [Hl Ht] El Et. split; congruence. Qed.

(** ** One call on the assembler *)

Ltac lookups :=
  repeat first [ rewrite lookup_insert_eq
               | rewrite lookup_insert_ne by congruence ].
Ltac wf_solve := unfold builder_at, order_at; split_and!; lookups.

Lemma new_run (σ : state) :
  ∃ b o t σ', OrderBuilder.new σ = Ok (VRef b, σ') ∧
              builder_at (heap σ') b o t idle ∧
              heap σ !! b = None ∧
              (∀ l x, heap σ !! l = Some x → heap σ' !! l = Some x).
Proof.
  unfold OrderBuilder.new, OrderBuilder.constructor, OrderBuilder.reset.
  unfold_prims.
  destruct (alloc_run (OObj "OrderBuilder" []) σ) as (b & -> & Hb).
  destruct (Order_new_run (with_heap (<[b:=OObj "OrderBuilder" []]> (heap σ)) σ))
    as (o & t & -> & Ho & Ht & Hne).
  simpl in Ho, Ht.
  apply lookup_insert_None in Ho as [Ho ?], Ht as [Ht ?].
  run. eexists b, o, t, _. split; [done|]. simpl.
  split; [by wf_solve|]. split; [done|].
  intros l x Hl. by lookups.
Qed.

Lemma run_op_step (σ : state) (b o t : loc) (r : order_rec) (c : op) :
  builder_at (heap σ) b o t r →
  ∃ ret σ' o' t',
    run_op (VRef b) c σ = Ok (ret, σ') ∧
    builder_at (heap σ') b o' t' (apply_op c r) ∧
    (∀ l x, heap σ !! l = Some x → l ≠ b → l ≠ o → l ≠ t →
            heap σ' !! l = Some x ∧ l ≠ o' ∧ l ≠ t') ∧
    (c ≠ Build → ret = VRef b).
Proof.
  intros Hat. pose proof Hat as (Hb & Ho & Ht).
  destruct c as [|s|x|n|]; simpl.
  - destruct (reset_run σ b o t r Hat) as (o' & t' & -> & Ho' & Ht' & Hne).
    eexists _, _, o', t'. split; [done|]. simpl.
    split; [by wf_solve|]. split; [|done].
    intros l y Hl ? ? ?. by split_and!; [lookups|congruence..].
  - rewrite (setSize_run σ b o t r Hat s).
    eexists _, _, o, t. split; [done|]. simpl.
    split; [by wf_solve|]. split; [|done].
    intros l y Hl ? ? ?. by split_and!; [lookups|..].
  - rewrite (addTopping_run σ b o t r Hat x).
    eexists _, _, o, t. split; [done|]. simpl.
    split; [by wf_solve|]. split; [|done].
    intros l y Hl ? ? ?. by split_and!; [lookups|..].
  - rewrite (setNotes_run σ b o t r Hat n).
    eexists _, _, o, t. split; [done|]. simpl.
    split; [by wf_solve|]. split; [|done].
    intros l y Hl ? ? ?. by split_and!; [lookups|..].
  - destruct (build_run σ b o t r Hat)
      as (s & st & o' & t' & σ1 & σ' & E & Hc & Hh & _ & _ & Ho' & Ht' & Hne).
    pose proof (copied_frame _ _ _ _ _ b _ Hc Hb) as (Hb1 & _).
    eexists _, σ', o', t'. split; [done|]. rewrite Hh.
    split; [by wf_solve|]. split; [|done].
    intros l y Hl ? ? ?.
    pose proof (copied_frame _ _ _ _ _ l _ Hc Hl) as (Hl1 & _).
    by split_and!; [lookups|congruence..].
Qed.

Lemma run_ops_steps (ops : list op) (σ : state) (b o t : loc) (r : order_rec) :
  builder_at (heap σ) b o t r →
  ∃ rets σ' o' t',
    run_ops (VRef b) ops σ = Ok (rets, σ') ∧
    builder_at (heap σ') b o' t' (foldl (λ r c, apply_op c r) r ops) ∧
    (∀ l x, heap σ !! l = Some x → l ≠ b → l ≠ o → l ≠ t →
            heap σ' !! l = Some x ∧ l ≠ o' ∧ l ≠ t').
Proof.
  revert σ o t r. induction ops as [|c ops IH]; intros σ o t r Hat.
  - eexists [], σ, o, t. by split_and!.
  - destruct (run_op_step σ b o t r c Hat) as (ret & σ1 & o1 & t1 & E & Hat1 & F1 & _).
    destruct (IH σ1 o1 t1 _ Hat1) as (rets & σ2 & o2 & t2 & E2 & Hat2 & F2).
    eexists (ret :: rets), σ2, o2, t2.
    split; [|split; [done|]].
    + unfold run_ops in *. by rewrite mapM_cons, bind_run, E, bind_run, E2.
    + intros l x Hl ? ? ?.
      destruct (F1 l x Hl) as (Hl1 & ? & ?); [done..|].
      by apply (F2 l x).
Qed.

Lemma build_snapshot (σ : state) (b o t : loc) (r : order_rec) :
  builder_at (heap σ) b o t r →
  ∃ s st o' t' σ',
    OrderBuilder.build (VRef b) σ = Ok (VRef s, σ') ∧
    order_at (heap σ') "Object" s st r ∧
    builder_at (heap σ') b o' t' idle ∧
    heap σ !! s = None ∧ heap σ !! st = None ∧
    s ≠ b ∧ s ≠ o' ∧ s ≠ t' ∧ st ≠ b ∧ st ≠ o' ∧ st ≠ t'.
Proof.
  intros Hat. pose proof Hat as (Hb & Ho & Ht).
  destruct (build_run σ b o t r Hat)
    as (s & st & o' & t' & σ1 & σ' & E & Hc & Hh & _ & _ & Ho' & Ht' & Hne).
  pose proof (copied_frame _ _ _ _ _ b _ Hc Hb) as (Hb1 & ? & ?).
  pose proof (copied_order_at _ _ _ _ _ Hc) as [Hs Hst].
  pose proof Hc as (_ & _ & _ & Hfs & Hfst & _).
  exists s, st, o', t', σ'. rewrite Hh.
  split; [done|]. split; [by wf_solve|]. split; [by wf_solve|].
  split_and!; congruence.
Qed.

Lemma current_order_at (h : gmap loc obj) (b o t : loc) (r : order_rec) :
  builder_at h b o t r → current_order h (VRef b) = Some r.
Proof.
  intros (Hb & Ho). unfold current_order, field_of, fields_of. simpl.
  rewrite Hb. simpl. by eapply read_order_at.
Qed.

(** ** The claims about the assembler *)

(** C1: on a fresh assembler, the chained call
    [reset().setSize('Large').addTopping('Olives').addTopping('Cheese').build()]
    returns a snapshot that reads
    [{size:'Large', toppings:['Olives','Cheese'], notes:'', price:260}]. *)
Theorem C1_chain_snapshot (σ0 : state) :
  ∃ b σ1 s σ2,
    OrderBuilder.new σ0 = Ok (b, σ1) ∧
    chain_large_olives_cheese b σ1 = Ok (s, σ2) ∧
    read_order (heap σ2) s =
      Some (OrderRec (Some "Large") ["Olives"; "Cheese"] "" 260).
Proof.
  destruct (new_run σ0) as (b & o & t & σ1 & E & Hat & _).
  destruct (run_op_step σ1 b o t _ Reset Hat)
    as (? & σ2 & o2 & t2 & E1 & Hat2 & _ & R1).
  rewrite R1 in E1 by done; clear R1.
  destruct (run_op_step σ2 b o2 t2 _ (SetSize "Large") Hat2)
    as (? & σ3 & o3 & t3 & E2 & Hat3 & _ & R2).
  rewrite R2 in E2 by done; clear R2.
  destruct (run_op_step σ3 b o3 t3 _ (AddTopping "Olives") Hat3)
    as (? & σ4 & o4 & t4 & E3 & Hat4 & _ & R3).
  rewrite R3 in E3 by done; clear R3.
  destruct (run_op_step σ4 b o4 t4 _ (AddTopping "Cheese") Hat4)
    as (? & σ5 & o5 & t5 & E4 & Hat5 & _ & R4).
  rewrite R4 in E4 by done; clear R4.
  destruct (build_snapshot σ5 b o5 t5 _ Hat5)
    as (s & st & o' & t' & σ6 & E5 & Hs & _).
  simpl in E1, E2, E3, E4.
  exists (VRef b), σ1, (VRef s), σ6. split; [done|]. split.
  - unfold chain_large_olives_cheese.
    by rewrite bind_run, E1, bind_run, E2, bind_run, E3, bind_run, E4.
  - by rewrite (read_order_at _ _ _ _ _ Hs).
Qed.

Lemma size_price_base (s : string) :
  OrderBuilder.size_price (VStr s) = base_price s.
Proof.
  unfold OrderBuilder.size_price, strict_eq, base_price.
  repeat case_bool_decide; repeat case_decide; congruence.
Qed.

(** C2, as stated, fails on the code: the size string ['ExtraLarge'] is
    not charged 300.  On the idle assembler of the sample store it
    leaves the price at 120. *)
Lemma C2_ExtraLarge_not_300 : ¬ setSize_adds "ExtraLarge" 300.
Proof.
  intros H.
  destruct (H sample_state 1%positive 2%positive 3%positive idle)
    as (σ' & E & C).
  - repeat split; reflexivity.
  - unfold safe_int. simpl. lia.
  - unfold safe_int. simpl. lia.
  - vm_compute in E. injection E as <-.
    vm_compute in C. discriminate C.
Qed.

(** C2, amended: [setSize(s)] stores [s] as the size and adds a base
    price to the current price: 300 when [s] is the string
    ['Extra Large'], 200 when it is ['Large'], 120 for every other
    string; a second call adds its base price on top of the first.  The
    prices are safe integers. *)
Theorem C2_setSize_additive (σ : state) (b o t : loc) (r : order_rec)
    (s s2 : string) :
  builder_at (heap σ) b o t r →
  safe_int (ord_price r) →
  safe_int (ord_price r + base_price s + base_price s2) →
  ∃ σ1 σ2,
    OrderBuilder.setSize (VRef b) (VStr s) σ = Ok (VRef b, σ1) ∧
    current_order (heap σ1) (VRef b) =
      Some (OrderRec (Some s) (ord_toppings r) (ord_notes r)
              (ord_price r + base_price s)) ∧
    OrderBuilder.setSize (VRef b) (VStr s2) σ1 = Ok (VRef b, σ2) ∧
    current_order (heap σ2) (VRef b) =
      Some (OrderRec (Some s2) (ord_toppings r) (ord_notes r)
              (ord_price r + base_price s + base_price s2)) ∧
    base_price "Extra Large" = 300 ∧ base_price "Large" = 200 ∧
    (s ≠ "Extra Large"%string → s ≠ "Large"%string → base_price s = 120).
Proof.
  intros Hat _ _.
  destruct (run_op_step σ b o t r (SetSize s) Hat)
    as (ret & σ1 & o1 & t1 & E1 & Hat1 & _ & R1).
  destruct (run_op_step σ1 b o1 t1 _ (SetSize s2) Hat1)
    as (ret2 & σ2 & o2 & t2 & E2 & Hat2 & _ & R2).
  rewrite R1 in E1 by done. rewrite R2 in E2 by done. simpl in E1, E2.
  exists σ1, σ2.
  rewrite (current_order_at _ _ _ _ _ Hat1), (current_order_at _ _ _ _ _ Hat2).
  simpl. rewrite !size_price_base. split_and!; [done..|].
  intros H1 H2. unfold base_price. by rewrite !decide_False.
Qed.

Lemma C2_setSize_additive_witness :
  builder_at (heap sample_state) 1 2 3 idle ∧
  safe_int (ord_price idle) ∧
  safe_int (ord_price idle + base_price "Large" + base_price "Extra Large") ∧
  ∃ σ1 σ2,
    OrderBuilder.setSize (VRef 1) (VStr "Large") sample_state = Ok (VRef 1, σ1) ∧
    current_order (heap σ1) (VRef 1) = Some (OrderRec (Some "Large") [] "" 200) ∧
    OrderBuilder.setSize (VRef 1) (VStr "Extra Large") σ1 = Ok (VRef 1, σ2) ∧
    current_order (heap σ2) (VRef 1) =
      Some (OrderRec (Some "Extra Large") [] "" 500).
Proof.
  assert (builder_at (heap sample_state) 1 2 3 idle) as H.
  { repeat split; reflexivity. }
  assert (safe_int (ord_price idle)) as H0
    by (vm_compute; split; discriminate).
  assert (safe_int (ord_price idle + base_price "Large" +
                    base_price "Extra Large")) as H1
    by (vm_compute; split; discriminate).
  split; [exact H|]. split; [exact H0|]. split; [exact H1|].
  destruct (C2_setSize_additive sample_state 1 2 3 idle "Large" "Extra Large"
              H H0 H1) as (σ1 & σ2 & E1 & C1 & E2 & C2 & _).
  exists σ1, σ2. split; [exact E1|]. split; [exact C1|].
  split; [exact E2 | exact C2].
Defined.

(** C5: after any sequence of calls on a fresh assembler, [build()]
    returns a snapshot that reads as the working order and occupies fresh
    locations, and leaves the assembler idle (size null, no toppings,
    empty notes, price 0); whatever is called on the assembler afterwards,
    the snapshot still reads the same. *)
Theorem C5_build_snapshot_independent (σ0 : state) (ops1 ops2 : list op) :
  ∃ b σ1 rets1 σ2 r s σ3 rets2 σ4,
    OrderBuilder.new σ0 = Ok (b, σ1) ∧
    run_ops b ops1 σ1 = Ok (rets1, σ2) ∧
    current_order (heap σ2) b = Some r ∧
    OrderBuilder.build b σ2 = Ok (s, σ3) ∧
    read_order (heap σ3) s = Some r ∧
    (∀ l, l ∈ order_locs (heap σ3) s → heap σ2 !! l = None) ∧
    order_locs (heap σ3) s ≠ [] ∧
    current_order (heap σ3) b = Some idle ∧
    run_ops b ops2 σ3 = Ok (rets2, σ4) ∧
    read_order (heap σ4) s = Some r.
Proof.
  destruct (new_run σ0) as (b & o & t & σ1 & E & Hat & _).
  destruct (run_ops_steps ops1 σ1 b o t idle Hat)
    as (rets1 & σ2 & o2 & t2 & E1 & Hat2 & _).
  destruct (build_snapshot σ2 b o2 t2 _ Hat2)
    as (s & st & o3 & t3 & σ3 & E2 & Hs & Hat3 & Hfs & Hfst & Hne).
  destruct (run_ops_steps ops2 σ3 b o3 t3 idle Hat3)
    as (rets2 & σ4 & o4 & t4 & E3 & Hat4 & F).
  destruct Hs as [Hs Hst]. destruct Hne as (? & ? & ? & ? & ? & ?).
  destruct (F s _ Hs) as (Hs4 & _); [done..|].
  destruct (F st _ Hst) as (Hst4 & _); [done..|].
  eexists (VRef b), σ1, rets1, σ2, _, (VRef s), σ3, rets2, σ4.
  split; [done|]. split; [done|].
  split; [by eapply current_order_at|]. split; [done|].
  split; [by eapply read_order_at|].
  rewrite (order_locs_at (heap σ3) "Object" s st _ (conj Hs Hst)).
  split. { intros l [->|[->|[]%elem_of_nil]%elem_of_cons]%elem_of_cons; done. }
  split; [done|].
  split; [by eapply current_order_at|]. split; [done|].
  by eapply read_order_at.
Qed.

(** ** The claim about [clone] *)



(** ** The shared configuration *)

Ltac unfold_cfg :=
  unfold AppConfig.getInstance, AppConfig.new, AppConfig.constructor,
    AppConfig.toggleCurrency, AppConfig.get_instance, AppConfig.set_instance.

Lemma getInstance_first (σ : state) :
  AppConfig_instance σ = VUndef →
  ∃ c σ', AppConfig.getInstance σ = Ok (VRef c, σ') ∧
          heap σ !! c = None ∧
          config_at σ' c "INR" ∧
          (∀ l x, heap σ !! l = Some x → heap σ' !! l = Some x).
Proof.
  intros Hi. unfold_cfg. run.
  eexists l, _. split; [done|]. split; [done|]. unfold config_at. simpl.
  split; [by split; lookups|].
  intros l' x Hl. by lookups.
Qed.

Lemma getInstance_later (σ : state) (c : loc) :
  AppConfig_instance σ = VRef c → AppConfig.getInstance σ = Ok (VRef c, σ).
Proof. intros Hi. unfold_cfg. by run. Qed.

Lemma new_later (σ : state) (c : loc) (x : obj) :
  AppConfig_instance σ = VRef c → heap σ !! c = Some x →
  ∃ l, AppConfig.new σ =
         Ok (VRef c, with_heap (<[l := OObj "AppConfig" []]> (heap σ)) σ) ∧
       heap σ !! l = None.
Proof.
  intros Hi Hc. unfold_cfg. run. by exists l.
Qed.

Lemma assoc_set_set (k : string) (v v' : val) (fs : list (string * val)) :
  assoc_set k v (assoc_set k v' fs) = assoc_set k v fs.
Proof.
  induction fs as [|[k' w] fs IH]; simpl.
  - by rewrite String.eqb_refl.
  - destruct (String.eqb k k') eqn:E; simpl; rewrite E; [done|].
    by rewrite IH.
Qed.

Lemma assoc_set_get (k : string) (fs : list (string * val)) :
  assoc_get k fs ≠ VUndef → assoc_set k (assoc_get k fs) fs = fs.
Proof.
  induction fs as [|[k' w] fs IH]; simpl; [done|].
  destruct (String.eqb k k') eqn:E; [done|].
  intros H. by rewrite IH.
Qed.

Lemma assoc_get_set (k : string) (v : val) (fs : list (string * val)) :
  assoc_get k (assoc_set k v fs) = v.
Proof.
  induction fs as [|[k' w] fs IH]; simpl.
  - by rewrite String.eqb_refl.
  - destruct (String.eqb k k') eqn:E; simpl; by rewrite E.
Qed.

Lemma with_heap_id (σ : state) : with_heap (heap σ) σ = σ.
Proof. by destruct σ. Qed.

Lemma toggle_run (σ : state) (c : loc) (cls : string)
    (fs : list (string * val)) :
  heap σ !! c = Some (OObj cls fs) →
  AppConfig.toggleCurrency (VRef c) σ =
    Ok (tt, with_heap
              (<[c := OObj cls
                        (assoc_set "currency"
                           (if strict_eq (assoc_get "currency" fs) (VStr "INR")
                            then VStr "USD" else VStr "INR") fs)]>
                 (heap σ)) σ).
Proof. intros Hc. unfold_cfg. run. done. Qed.

Lemma toggle_config (σ : state) (c : loc) (cur : string) :
  config_at σ c cur → cur = "INR"%string ∨ cur = "USD"%string →
  ∃ σ', AppConfig.toggleCurrency (VRef c) σ = Ok (tt, σ') ∧
        config_at σ' c (flip cur) ∧
        (∀ l x, heap σ !! l = Some x → l ≠ c → heap σ' !! l = Some x).
Proof.
  intros [Hi Hc] Hcur. rewrite (toggle_run _ _ _ _ Hc).
  eexists. split; [done|]. unfold config_at. simpl.
  split; [split; [done|]|].
  - lookups. by destruct Hcur as [-> | ->].
  - intros l x Hl ?. by lookups.
Qed.

Lemma run_cfg_op_step (σ : state) (c : loc) (cur : string) (o : cfg_op) :
  config_at σ c cur → cur = "INR"%string ∨ cur = "USD"%string →
  ∃ σ', run_cfg_op o σ = Ok (VRef c, σ') ∧
        config_at σ' c (if decide (o = ToggleCurrency) then flip cur else cur).
Proof.
  intros Hat Hcur. pose proof Hat as [Hi Hc].
  destruct o; simpl.
  - exists σ. by rewrite (getInstance_later _ _ Hi).
  - destruct (new_later σ c _ Hi Hc) as (l & -> & Hl).
    eexists. split; [done|]. split; [done|]. simpl. by lookups.
  - rewrite bind_run, (getInstance_later _ _ Hi).
    destruct (toggle_config σ c cur Hat Hcur) as (σ' & E & Hat' & _).
    exists σ'. by rewrite bind_run, E.
Qed.

Lemma flip_cases (cur : string) :
  cur = "INR"%string ∨ cur = "USD"%string →
  (flip cur = "INR"%string ∨ flip cur = "USD"%string) ∧ flip (flip cur) = cur.
Proof. by intros [-> | ->]; vm_compute; auto. Qed.

Lemma run_cfg_ops_steps (ops : list cfg_op) (σ : state) (c : loc)
    (cur : string) :
  config_at σ c cur → cur = "INR"%string ∨ cur = "USD"%string →
  ∃ rets σ', run_cfg_ops ops σ = Ok (rets, σ') ∧
             length rets = length ops ∧
             Forall (λ v, v = VRef c) rets ∧
             config_at σ' c (Nat.iter (toggles ops) flip cur).
Proof.
  revert σ cur. induction ops as [|o ops IH]; intros σ cur Hat Hcur.
  - exists [], σ. by split_and!.
  - destruct (run_cfg_op_step σ c cur o Hat Hcur) as (σ1 & E1 & Hat1).
    assert (toggles (o :: ops) =
            if decide (o = ToggleCurrency) then S (toggles ops)
            else toggles ops) as Ht.
    { unfold toggles. rewrite filter_cons. by case_decide. }
    rewrite Ht. clear Ht.
    destruct (IH σ1 _ Hat1) as (rets & σ2 & E2 & Hlen & Hall & Hat2).
    { case_decide; [|done]. by apply flip_cases. }
    exists (VRef c :: rets), σ2. split_and!.
    + unfold run_cfg_ops in *. by rewrite mapM_cons, bind_run, E1, bind_run, E2.
    + simpl. by rewrite Hlen.
    + by constructor.
    + case_decide; [|done]. by rewrite Nat.iter_succ_r.
Qed.

Lemma read_config_at (σ : state) (c : loc) (cur : string) :
  config_at σ c cur →
  read_config (heap σ) (VRef c) = Some (ConfigRec cur 5 10).
Proof.
  intros [_ Hc]. unfold read_config, fields_of. simpl. by rewrite Hc.
Qed.

Lemma iter_flip (n : nat) :
  Nat.iter n flip "INR"%string =
  if Nat.even n then "INR"%string else "USD"%string.
Proof.
  induction n as [|n IH]; [done|].
  rewrite Nat.even_succ, <- Nat.negb_even. simpl. rewrite IH.
  by destruct (Nat.even n).
Qed.

(** ** The claims about the shared configuration *)

(** C7: the first [getInstance()] creates the configuration with
    currency INR, tax 5 and discount 10; afterwards every [getInstance()]
    and every [new AppConfig()] returns that same object, and a currency
    toggled through a later reference is seen through the first one. *)
Theorem C7_single_shared_instance (σ0 : state) :
  AppConfig_instance σ0 = VUndef →
  ∃ c σ1,
    AppConfig.getInstance σ0 = Ok (VRef c, σ1) ∧
    heap σ0 !! c = None ∧
    AppConfig_instance σ1 = VRef c ∧
    read_config (heap σ1) (VRef c) = Some (ConfigRec "INR" 5 10) ∧
    ∀ ops : list cfg_op,
      ∃ rets σ2,
        run_cfg_ops ops σ1 = Ok (rets, σ2) ∧
        length rets = length ops ∧
        Forall (λ v, v = VRef c) rets ∧
        AppConfig_instance σ2 = VRef c ∧
        read_config (heap σ2) (VRef c) =
          Some (ConfigRec (if Nat.even (toggles ops) then "INR" else "USD")
                  5 10).
Proof.
  intros Hi.
  destruct (getInstance_first σ0 Hi) as (c & σ1 & E & Hc & Hat & _).
  exists c, σ1. split; [done|]. split; [done|].
  split; [by destruct Hat|]. split; [by apply read_config_at|].
  intros ops.
  destruct (run_cfg_ops_steps ops σ1 c "INR" Hat) as (rets & σ2 & E2 & Hlen & Hall & Hat2);
    [by left|].
  exists rets, σ2. split; [done|]. split; [done|].
  split; [done|]. split; [by destruct Hat2|].
  rewrite <- iter_flip. by apply read_config_at.
Qed.

Lemma C7_single_shared_instance_witness :
  AppConfig_instance (State ∅ VUndef false) = VUndef ∧
  ∃ c σ1, AppConfig.getInstance (State ∅ VUndef false) = Ok (VRef c, σ1) ∧
          read_config (heap σ1) (VRef c) = Some (ConfigRec "INR" 5 10).
Proof.
  split; [reflexivity|].
  destruct (C7_single_shared_instance (State ∅ VUndef false) eq_refl)
    as (c & σ1 & E & _ & _ & R & _).
  exists c, σ1. split; [exact E | exact R].
Defined.

(** C9: on a configuration whose currency is INR or USD, one
    [toggleCurrency()] sets the other value and a second one restores the
    state it started from. *)
Theorem C9_toggle_involution (σ : state) (c : loc) (cls : string)
    (fs : list (string * val)) (cur : string) :
  heap σ !! c = Some (OObj cls fs) →
  assoc_get "currency" fs = VStr cur →
  cur = "INR"%string ∨ cur = "USD"%string →
  ∃ σ1,
    AppConfig.toggleCurrency (VRef c) σ = Ok (tt, σ1) ∧
    field_of (heap σ1) (VRef c) "currency" =
      Some (VStr (if decide (cur = "INR"%string) then "USD" else "INR")) ∧
    AppConfig.toggleCurrency (VRef c) σ1 = Ok (tt, σ) ∧
    field_of (heap σ) (VRef c) "currency" = Some (VStr cur).
Proof.
  intros Hc Hcur Hin.
  rewrite (toggle_run _ _ _ _ Hc), Hcur.
  eexists. split; [done|]. simpl.
  assert (field_of (heap σ) (VRef c) "currency" = Some (VStr cur)) as Hf.
  { unfold field_of, fields_of. simpl. by rewrite Hc, <- Hcur. }
  split; [|split; [|done]].
  - unfold field_of, fields_of. simpl. lookups. simpl.
    rewrite assoc_get_set. by destruct Hin as [-> | ->].
  - erewrite toggle_run by (simpl; by lookups). simpl.
    rewrite assoc_get_set, assoc_set_set, insert_insert_eq.
    replace (if strict_eq _ _ then VStr "USD" else VStr "INR") with (VStr cur)
      by (by destruct Hin as [-> | ->]).
    rewrite <- Hcur, assoc_set_get by (by rewrite Hcur).
    by rewrite with_heap_with_heap, insert_id, with_heap_id.
Qed.

(** C10: once the shared instance exists, [new AppConfig()] returns it
    and leaves its currency, tax and discount as they were. *)
Theorem C10_constructor_keeps_settings (σ : state) (c : loc) (x : obj) :
  AppConfig_instance σ = VRef c →
  heap σ !! c = Some x →
  ∃ σ',
    AppConfig.new σ = Ok (VRef c, σ') ∧
    AppConfig_instance σ' = VRef c ∧
    heap σ' !! c = Some x ∧
    read_config (heap σ') (VRef c) = read_config (heap σ) (VRef c).
Proof.
  intros Hi Hc. destruct (new_later σ c x Hi Hc) as (l & -> & Hl).
  eexists. split; [done|]. simpl.
  assert (<[l:=OObj "AppConfig" []]> (heap σ) !! c = Some x) as Hc'
    by (by lookups).
  split; [done|]. split; [done|].
  unfold read_config, fields_of. simpl. by rewrite Hc', Hc.
Qed.

(** ** The factories *)

Ltac unfold_factories :=
  unfold UserFactory.create, Customer.new, Customer.constructor,
    DeliveryPartner.new, DeliveryPartner.constructor, Restaurant.new,
    Restaurant.constructor, PaymentFactory.create, UPI.new, UPI.constructor,
    Wallet.new, Wallet.constructor, Card.new, Card.constructor.

Lemma create_participant_run (σ : state) (name : val) :
  creates_participant σ (VStr "Customer") name
    (ParticipantRec (VStr "Customer") (js_or name (VStr "Anon Cust"))
       [VStr "order"]) ∧
  creates_participant σ (VStr "DeliveryPartner") name
    (ParticipantRec (VStr "DeliveryPartner") (js_or name (VStr "Anon Rider"))
       [VStr "deliver"]) ∧
  creates_participant σ (VStr "Restaurant") name
    (ParticipantRec (VStr "Restaurant") (js_or name (VStr "Anon Resto"))
       [VStr "menu"; VStr "receive_orders"]).
Proof.
  unfold creates_participant. split_and!; unfold_factories; run;
    (eexists _, _; split; [done|]);
    unfold read_participant, fields_of, elems_of; simpl; lookups; simpl;
    by lookups.
Qed.

Lemma create_participant_unknown (σ : state) (type name : val) :
  type ∉ known_categories →
  UserFactory.create type name σ = Throw UnknownCategory.
Proof.
  unfold known_categories. rewrite !not_elem_of_cons. intros (? & ? & ? & _).
  unfold UserFactory.create, strict_eq.
  by rewrite !bool_decide_eq_false_2.
Qed.

Lemma create_payment_run (σ : state) (l : loc) (cls : string)
    (fs : list (string * val)) :
  heap σ !! l = Some (OObj cls fs) →
  creates_payment σ (VStr "UPI") (VRef l) "id"
    (js_or (assoc_get "id" fs) (VStr "user@upi")) ∧
  creates_payment σ (VStr "Wallet") (VRef l) "walletId"
    (js_or (assoc_get "walletId" fs) (VStr "WALLET123")) ∧
  creates_payment σ (VStr "Card") (VRef l) "cardNo"
    (js_or (assoc_get "cardNo" fs) (VStr "4242424242424242")).
Proof.
  intros Hl. unfold creates_payment. split_and!; unfold_factories; run;
    (eexists _, _; split; [done|]);
    unfold field_of, fields_of; simpl; by lookups.
Qed.

Lemma create_payment_unknown (σ : state) (family opts : val) :
  family ∉ known_families →
  PaymentFactory.create family opts σ = Throw UnknownPaymentFamily.
Proof.
  unfold known_families. rewrite !not_elem_of_cons. intros (? & ? & ? & _).
  unfold PaymentFactory.create, strict_eq.
  by rewrite !bool_decide_eq_false_2.
Qed.

Lemma card_receipt (σ : state) (l : loc) (cls : string)
    (fs : list (string * val)) (amount : val) (a s : string) :
  heap σ !! l = Some (OObj cls fs) →
  js_String amount = Ok a →
  js_String (js_or (assoc_get "cardNo" fs) (VStr "4242424242424242")) = Ok s →
  ∃ σ', receipt (VStr "Card") (VRef l) amount σ =
          Ok (VStr ("Paid " +:+ a +:+ " via Card (xxxx-" +:+
                    String_slice s (-4) +:+ ")"), σ').
Proof.
  intros Hl Ha Hs. unfold receipt, call_pay, Card.pay. unfold_factories. run.
  rewrite Ha. run. rewrite Hs. simpl. by eexists.
Qed.

Lemma string_drop_suffix (n : nat) (s : string) :
  ∃ pre, s = pre +:+ string_drop n s ∧
         String.length (string_drop n s) = (String.length s - n)%nat.
Proof.
  revert s. induction n as [|n IH]; intros s.
  - exists ""%string. split; [done|]. simpl. lia.
  - destruct s as [|ch s]; simpl.
    + by exists ""%string.
    + destruct (IH s) as (pre & E & Hlen).
      exists (String ch pre). split; [|done].
      change (String ch s = String ch (pre +:+ string_drop n s)).
      by f_equal.
Qed.

Lemma slice_last_four (s : string) :
  ∃ pre, s = pre +:+ String_slice s (-4) ∧
         String.length (String_slice s (-4)) = (String.length s `min` 4)%nat.
Proof.
  unfold String_slice. simpl.
  destruct (string_drop_suffix
              (Z.to_nat (Z.max (Z.of_nat (String.length s) + -4) 0)) s)
    as (pre & E & Hlen).
  exists pre. split; [done|]. rewrite Hlen. lia.
Qed.

Lemma assoc_get_missing (k : string) (fs : list (string * val)) :
  k ∉ fs.*1 → assoc_get k fs = VUndef.
Proof.
  induction fs as [|[k' v] fs IH]; [done|]. simpl.
  intros [Hne Hk]%not_elem_of_cons.
  destruct (String.eqb k k') eqn:E; [by apply String.eqb_eq in E|].
  by apply IH.
Qed.

(** ** The claims about the factories *)

(** Two runs on concrete stores: a size spelled without the space is
    not the extra-large one, and an empty [id] gives way to the default. *)
Example setSize_ExtraLarge_unspaced :
  ∃ σ', OrderBuilder.setSize (VRef 1) (VStr "ExtraLarge") sample_state =
          Ok (VRef 1, σ') ∧
        current_order (heap σ') (VRef 1) =
          Some (OrderRec (Some "ExtraLarge") [] "" 120).
Proof. eexists. split; vm_compute; reflexivity. Qed.

Example create_UPI_empty_id :
  ∃ p σ',
    (o ← alloc (OObj "Object" [("id"%string, VStr "")]);
     PaymentFactory.create (VStr "UPI") (VRef o)) bag_state = Ok (p, σ') ∧
    field_of (heap σ') p "id" = Some (VStr "user@upi").
Proof. eexists _, _. split; vm_compute; reflexivity. Qed.

(** C3, as stated, fails on the code: [create('Card', opts)] does not
    read [opts.cardNumber].  With [{cardNumber:'1111222233334444'}] the
    card it creates holds the default number. *)
Lemma C3_cardNumber_not_read :
  ¬ reads_option "Card" "cardNumber" "4242424242424242" "cardNo".
Proof.
  intros H.
  destruct (H bag_state 1%positive "Object"%string
              [("cardNumber"%string, VStr "1111222233334444")] eq_refl)
    as (p & σ' & E & F).
  vm_compute in E. injection E as <- <-.
  vm_compute in F. discriminate F.
Qed.

(** C3, amended: [create] reads [opts.id] for UPI, [opts.walletId] for
    Wallet and [opts.cardNo] for Card, and falls back to ['user@upi'],
    ['WALLET123'], ['4242424242424242'] when the value read is falsy, as
    it is for a missing key.  The Card receipt is
    ["Paid <amount> via Card (xxxx-<last four>)"], where the last four
    are the final characters (at most four) of the card number's string
    form; for the bag [{cardNumber:'4242424242424242'}] and amount 199
    it contains ["xxxx-4242"]. *)
Theorem C3_payment_options (σ : state) (l : loc) (cls : string)
    (fs : list (string * val)) :
  heap σ !! l = Some (OObj cls fs) →
  creates_payment σ (VStr "UPI") (VRef l) "id"
    (if truthy (assoc_get "id" fs) then assoc_get "id" fs
     else VStr "user@upi") ∧
  creates_payment σ (VStr "Wallet") (VRef l) "walletId"
    (if truthy (assoc_get "walletId" fs) then assoc_get "walletId" fs
     else VStr "WALLET123") ∧
  creates_payment σ (VStr "Card") (VRef l) "cardNo"
    (if truthy (assoc_get "cardNo" fs) then assoc_get "cardNo" fs
     else VStr "4242424242424242") ∧
  (∀ k, k ∉ fs.*1 → truthy (assoc_get k fs) = false) ∧
  (∀ amount a s,
     js_String amount = Ok a →
     js_String (if truthy (assoc_get "cardNo" fs) then assoc_get "cardNo" fs
                else VStr "4242424242424242") = Ok s →
     ∃ σ' pre,
       receipt (VStr "Card") (VRef l) amount σ =
         Ok (VStr ("Paid " +:+ a +:+ " via Card (xxxx-" +:+
                   String_slice s (-4) +:+ ")"), σ') ∧
       s = pre +:+ String_slice s (-4) ∧
       String.length (String_slice s (-4)) = (String.length s `min` 4)%nat) ∧
  (fs = [("cardNumber"%string, VStr "4242424242424242")] →
   ∃ rc σ',
     receipt (VStr "Card") (VRef l) (VNum 199) σ = Ok (VStr rc, σ') ∧
     includes "xxxx-4242" rc = true).
Proof.
  intros Hl.
  destruct (create_payment_run σ l cls fs Hl) as (H1 & H2 & H3).
  split; [done|]. split; [done|]. split; [done|]. split.
  { intros k Hk. by rewrite assoc_get_missing. }
  split.
  - intros amount a s Ha Hs.
    destruct (card_receipt σ l cls fs amount a s Hl Ha Hs) as (σ' & E).
    destruct (slice_last_four s) as (pre & Hpre & Hlen).
    by exists σ', pre.
  - intros ->.
    destruct (card_receipt σ l cls _ (VNum 199) "199" "4242424242424242"
                Hl eq_refl eq_refl) as (σ' & E).
    by eexists _, σ'.
Qed.

Lemma C3_payment_options_witness :
  heap sample_state !! 4%positive =
    Some (OObj "Object" [("cardNumber"%string, VStr "4242424242424242")]) ∧
  ∃ rc σ',
    receipt (VStr "Card") (VRef 4) (VNum 199) sample_state = Ok (VStr rc, σ') ∧
    includes "xxxx-4242" rc = true.
Proof.
  split; [reflexivity|].
  exact (proj2 (proj2 (proj2 (proj2 (proj2
           (C3_payment_options sample_state 4 "Object"
              [("cardNumber"%string, VStr "4242424242424242")] eq_refl)))))
         eq_refl).
Defined.

Lemma create_participant_known (σ : state) (type name : val) :
  type ∈ known_categories →
  ∃ p σ' rec,
    UserFactory.create type name σ = Ok (VRef p, σ') ∧
    heap σ !! p = None ∧
    read_participant (heap σ') (VRef p) = Some rec ∧
    p_type rec = type.
Proof.
  unfold known_categories. rewrite !elem_of_cons, elem_of_nil.
  intros [->|[->|[->|[]]]]; unfold_factories; run;
    (eexists l, _, _; split; [done|]; split; [done|]);
    unfold read_participant, fields_of, elems_of; simpl; lookups; simpl;
    lookups; by simpl.
Qed.

Lemma create_payment_known (σ : state) (family : val) (l : loc) (cls : string)
    (fs : list (string * val)) :
  heap σ !! l = Some (OObj cls fs) →
  family ∈ known_families →
  ∃ p σ',
    PaymentFactory.create family (VRef l) σ = Ok (VRef p, σ') ∧
    heap σ !! p = None ∧
    field_of (heap σ') (VRef p) "method" = Some family.
Proof.
  intros Hl. unfold known_families. rewrite !elem_of_cons, elem_of_nil.
  intros [->|[->|[->|[]]]]; unfold_factories; run;
    (eexists l0, _; split; [done|]; split; [done|]);
    unfold field_of, fields_of; simpl; by lookups.
Qed.

Lemma create_payment_missing (σ : state) (l : loc) (cls : string)
    (fs : list (string * val)) (family key dflt : string) :
  heap σ !! l = Some (OObj cls fs) →
  (family, key, dflt) ∈ [("UPI", "id", "user@upi");
                         ("Wallet", "walletId", "WALLET123");
                         ("Card", "cardNo", "4242424242424242")]%string →
  key ∉ fs.*1 →
  creates_payment σ (VStr family) (VRef l) key (VStr dflt).
Proof.
  intros Hl Hin Hk%assoc_get_missing.
  destruct (create_payment_run σ l cls fs Hl) as (H1 & H2 & H3).
  rewrite !elem_of_cons, elem_of_nil in Hin.
  destruct Hin as [[= -> -> ->]|[[= -> -> ->]|[[= -> -> ->]|[]]]];
    rewrite Hk in *; done.
Qed.

(** C4, as stated, fails on the code: [PaymentFactory.create] also fails
    for a known family, with a TypeError, when no options object is
    passed. *)
Lemma C4_create_without_bag_throws : ¬ create_fails_only_for_unknown_family.
Proof.
  intros H.
  apply (H sample_state (VStr "UPI") VUndef
           (TypeError "Cannot read properties")); [reflexivity|].
  apply (bool_decide_unpack _). exact I.
Qed.

(** C4, amended: [UserFactory.create] throws the unknown-category error
    exactly when the tag is none of Customer, DeliveryPartner,
    Restaurant, and otherwise returns a new participant of that type.
    Given an options object, [PaymentFactory.create] throws the
    unknown-family error exactly when the tag is none of UPI, Wallet,
    Card, and otherwise returns a new method of that family, with
    ['user@upi'], ['WALLET123'], ['4242424242424242'] in place of a
    missing option; given [undefined] or [null] in place of the options
    object it throws a TypeError for a known family and the
    unknown-family error for an unknown one.  A throwing call returns no
    record.  [setSize] with an unrecognized size stores it and adds the
    default 120 (prices are safe integers). *)
Theorem C4_errors_and_defaults (σ : state) (type name family : val)
    (opts : loc) (cls : string) (fs : list (string * val))
    (b o t : loc) (r : order_rec) (s : string) :
  heap σ !! opts = Some (OObj cls fs) →
  builder_at (heap σ) b o t r →
  safe_int (ord_price r) → safe_int (ord_price r + 120) →
  (type ∉ known_categories ↔
     UserFactory.create type name σ = Throw UnknownCategory) ∧
  (type ∈ known_categories ↔
     ∃ p σ' rec,
       UserFactory.create type name σ = Ok (VRef p, σ') ∧
       heap σ !! p = None ∧
       read_participant (heap σ') (VRef p) = Some rec ∧
       p_type rec = type) ∧
  (family ∉ known_families ↔
     PaymentFactory.create family (VRef opts) σ = Throw UnknownPaymentFamily) ∧
  (family ∈ known_families ↔
     ∃ p σ',
       PaymentFactory.create family (VRef opts) σ = Ok (VRef p, σ') ∧
       heap σ !! p = None ∧
       field_of (heap σ') (VRef p) "method" = Some family) ∧
  ("id"%string ∉ fs.*1 →
   creates_payment σ (VStr "UPI") (VRef opts) "id" (VStr "user@upi")) ∧
  ("walletId"%string ∉ fs.*1 →
   creates_payment σ (VStr "Wallet") (VRef opts) "walletId"
     (VStr "WALLET123")) ∧
  ("cardNo"%string ∉ fs.*1 →
   creates_payment σ (VStr "Card") (VRef opts) "cardNo"
     (VStr "4242424242424242")) ∧
  (∀ none, none = VUndef ∨ none = VNull →
     (family ∈ known_families →
      ∃ msg, PaymentFactory.create family none σ = Throw (TypeError msg)) ∧
     (family ∉ known_families →
      PaymentFactory.create family none σ = Throw UnknownPaymentFamily)) ∧
  (s ≠ "Extra Large"%string → s ≠ "Large"%string →
   ∃ σ',
     OrderBuilder.setSize (VRef b) (VStr s) σ = Ok (VRef b, σ') ∧
     current_order (heap σ') (VRef b) =
       Some (OrderRec (Some s) (ord_toppings r) (ord_notes r)
               (ord_price r + 120))).
Proof.
  intros Hopts Hat _ _.
  split_and!.
  - split; [apply create_participant_unknown|].
    intros E Hin.
    destruct (create_participant_known σ type name Hin) as (p & σ' & rec & E' & _).
    congruence.
  - split; [apply create_participant_known|]. intros (p & σ' & rec & E & _).
    destruct (decide (type ∈ known_categories)) as [|Hn]; [done|].
    rewrite (create_participant_unknown σ type name Hn) in E. done.
  - split; [apply create_payment_unknown|].
    intros E Hin.
    destruct (create_payment_known σ family opts cls fs Hopts Hin)
      as (p & σ' & E' & _).
    congruence.
  - split; [by apply (create_payment_known σ family opts cls fs)|].
    intros (p & σ' & E & _).
    destruct (decide (family ∈ known_families)) as [|Hn]; [done|].
    rewrite (create_payment_unknown σ family _ Hn) in E. done.
  - apply (create_payment_missing σ opts cls fs); [done|].
    rewrite !elem_of_cons. auto.
  - apply (create_payment_missing σ opts cls fs); [done|].
    rewrite !elem_of_cons. auto.
  - apply (create_payment_missing σ opts cls fs); [done|].
    rewrite !elem_of_cons. auto.
  - intros none Hnone. split; [|apply create_payment_unknown].
    unfold known_families. rewrite !elem_of_cons, elem_of_nil.
    intros [->|[->|[->|[]]]]; destruct Hnone as [-> | ->]; by eexists.
  - intros H1 H2. rewrite (setSize_run σ b o t r Hat s).
    eexists. split; [done|]. simpl.
    pose proof Hat as (Hb & Ho & Ht).
    rewrite (current_order_at _ b o t (apply_op (SetSize s) r))
      by (unfold builder_at, order_at; simpl; split_and!; by lookups).
    simpl. rewrite size_price_base. unfold base_price.
    by rewrite !decide_False.
Qed.

Lemma C4_errors_and_defaults_witness :
  heap sample_state !! 4%positive =
    Some (OObj "Object" [("cardNumber"%string, VStr "4242424242424242")]) ∧
  builder_at (heap sample_state) 1 2 3 idle ∧
  safe_int (ord_price idle) ∧ safe_int (ord_price idle + 120) ∧
  UserFactory.create (VStr "Alien") VUndef sample_state =
    Throw UnknownCategory ∧
  PaymentFactory.create (VStr "Bogus") (VRef 4) sample_state =
    Throw UnknownPaymentFamily ∧
  creates_payment sample_state (VStr "Card") (VRef 4) "cardNo"
    (VStr "4242424242424242") ∧
  ∃ σ',
    OrderBuilder.setSize (VRef 1) (VStr "Gigantic") sample_state =
      Ok (VRef 1, σ') ∧
    current_order (heap σ') (VRef 1) =
      Some (OrderRec (Some "Gigantic") [] "" 120).
Proof.
  assert (builder_at (heap sample_state) 1 2 3 idle) as H.
  { repeat split; reflexivity. }
  assert (safe_int (ord_price idle)) as H0
    by (vm_compute; split; discriminate).
  assert (safe_int (ord_price idle + 120)) as H1
    by (vm_compute; split; discriminate).
  pose proof (C4_errors_and_defaults sample_state (VStr "Alien") VUndef
                (VStr "Bogus") 4 "Object" _ 1 2 3 idle "Gigantic" eq_refl H
                H0 H1)
    as (HU & _ & HP & _ & _ & _ & HC & _ & HS).
  split; [reflexivity|]. split; [exact H|]. split; [exact H0|].
  split; [exact H1|].
  split; [|split; [|split]].
  - apply HU. apply (bool_decide_unpack _). exact I.
  - apply HP. apply (bool_decide_unpack _). exact I.
  - apply HC. apply (bool_decide_unpack _). exact I.
  - apply HS; discriminate.
Defined.

(** C8: [create('Customer')], [create('DeliveryPartner')] and
    [create('Restaurant')] return participants with permissions
    [['order']], [['deliver']] and [['menu','receive_orders']]; with the
    name omitted the name is ['Anon Cust'], ['Anon Rider'], ['Anon Resto'],
    and a non-empty name that is given is kept. *)
Theorem C8_participants (σ : state) :
  creates_participant σ (VStr "Customer") VUndef
    (ParticipantRec (VStr "Customer") (VStr "Anon Cust") [VStr "order"]) ∧
  creates_participant σ (VStr "DeliveryPartner") VUndef
    (ParticipantRec (VStr "DeliveryPartner") (VStr "Anon Rider")
       [VStr "deliver"]) ∧
  creates_participant σ (VStr "Restaurant") VUndef
    (ParticipantRec (VStr "Restaurant") (VStr "Anon Resto")
       [VStr "menu"; VStr "receive_orders"]) ∧
  ∀ (a : Ascii.ascii) (n : string),
    creates_participant σ (VStr "Customer") (VStr (String a n))
      (ParticipantRec (VStr "Customer") (VStr (String a n)) [VStr "order"]) ∧
    creates_participant σ (VStr "DeliveryPartner") (VStr (String a n))
      (ParticipantRec (VStr "DeliveryPartner") (VStr (String a n))
         [VStr "deliver"]) ∧
    creates_participant σ (VStr "Restaurant") (VStr (String a n))
      (ParticipantRec (VStr "Restaurant") (VStr (String a n))
         [VStr "menu"; VStr "receive_orders"]).
Proof.
  destruct (create_participant_run σ VUndef) as (H1 & H2 & H3).
  split; [done|]. split; [done|]. split; [done|].
  intros a n. exact (create_participant_run σ (VStr (String a n))).
Qed.


Lemma C9_toggle_involution_witness :
  heap sample_state !! 7%positive =
    Some (OObj "AppConfig" [("currency"%string, VStr "USD");
                            ("tax"%string, VNum 5);
                            ("discount"%string, VNum 10)]) ∧
  ∃ σ1,
    AppConfig.toggleCurrency (VRef 7) sample_state = Ok (tt, σ1) ∧
    field_of (heap σ1) (VRef 7) "currency" = Some (VStr "INR") ∧
    AppConfig.toggleCurrency (VRef 7) σ1 = Ok (tt, sample_state).
Proof.
  split; [reflexivity|].
  destruct (C9_toggle_involution sample_state 7 "AppConfig" _ "USD"
              eq_refl eq_refl (or_intror eq_refl))
    as (σ1 & E1 & F & E2 & _).
  exists σ1. split; [exact E1|]. split; [exact F | exact E2].
Defined.

Lemma C10_constructor_keeps_settings_witness :
  AppConfig_instance sample_state = VRef 7 ∧
  ∃ σ',
    AppConfig.new sample_state = Ok (VRef 7, σ') ∧
    read_config (heap σ') (VRef 7) = Some (ConfigRec "USD" 5 10).
Proof.
  split; [reflexivity|].
  destruct (C10_constructor_keeps_settings sample_state 7 _ eq_refl eq_refl)
    as (σ' & E & _ & _ & R).
  exists σ'. split; [exact E|]. rewrite R. reflexivity.
Defined.

(** * Further properties of the code *)

(** ** The shared configuration *)

Lemma read_config_inv (h : gmap loc obj) (v : val) (c : string) (t d : Z) :
  read_config h v = Some (ConfigRec c t d) →
  ∃ l cls, v = VRef l ∧
           h !! l = Some (OObj cls [("currency"%string, VStr c);
                                    ("tax"%string, VNum t);
                                    ("discount"%string, VNum d)]).
Proof.
  unfold read_config, fields_of. intros H.
  destruct v as [| | | | |l]; try done. simpl in H.
  destruct (h !! l) as [[cls fs|]|] eqn:Hl; try done. simpl in H.
  case_guard as Hk; [|done]. simpl in H.
  destruct fs as [|[k1 v1] [|[k2 v2] [|[k3 v3] [|]]]]; try done.
  unfold config_keys in Hk. simpl in Hk. simplify_eq. simpl in H.
  destruct v1 as [| | | |c'|]; try done.
  destruct v2 as [| | |t'| |]; try done.
  destruct v3 as [| | |d'| |]; try done.
  simpl in H. simplify_eq. by exists l, cls.
Qed.

Lemma read_config_shape (h : gmap loc obj) (l : loc) (cls c : string)
    (t d : Z) :
  h !! l = Some (OObj cls [("currency"%string, VStr c);
                           ("tax"%string, VNum t);
                           ("discount"%string, VNum d)]) →
  read_config h (VRef l) = Some (ConfigRec c t d).
Proof. intros Hl. unfold read_config, fields_of. simpl. by rewrite Hl. Qed.

Lemma toggle_read_config (σ : state) (v : val) (c : string) (t d : Z) :
  read_config (heap σ) v = Some (ConfigRec c t d) →
  ∃ σ',
    AppConfig.toggleCurrency v σ = Ok (tt, σ') ∧
    read_config (heap σ') v =
      Some (ConfigRec (if decide (c = "INR"%string) then "USD" else "INR")
              t d) ∧
    (∀ l, VRef l ≠ v → heap σ' !! l = heap σ !! l) ∧
    AppConfig_instance σ' = AppConfig_instance σ.
Proof.
  intros (l & cls & -> & Hl)%read_config_inv.
  rewrite (toggle_run _ _ _ _ Hl). eexists. split; [done|]. simpl.
  split; [|split; [|done]].
  - apply (read_config_shape _ l cls). lookups. unfold strict_eq.
    case_bool_decide; case_decide; by simplify_eq.
  - intros l' Hne. rewrite lookup_insert_ne; [done|congruence].
Qed.

(** X1: on any configuration record, [toggleCurrency()] changes the
    currency only: INR becomes USD and every other value becomes INR;
    tax, discount, every other object and the registered instance stay
    as they are. *)
Theorem X1_toggle_changes_currency_only (σ : state) (v : val) (c : string)
    (t d : Z) :
  read_config (heap σ) v = Some (ConfigRec c t d) →
  ∃ σ',
    AppConfig.toggleCurrency v σ = Ok (tt, σ') ∧
    read_config (heap σ') v =
      Some (ConfigRec (if decide (c = "INR"%string) then "USD" else "INR")
              t d) ∧
    (∀ l, VRef l ≠ v → heap σ' !! l = heap σ !! l) ∧
    AppConfig_instance σ' = AppConfig_instance σ.
Proof. apply toggle_read_config. Qed.

Lemma X1_toggle_changes_currency_only_witness :
  read_config (heap sample_state) (VRef 7) = Some (ConfigRec "USD" 5 10) ∧
  ∃ σ',
    AppConfig.toggleCurrency (VRef 7) sample_state = Ok (tt, σ') ∧
    read_config (heap σ') (VRef 7) = Some (ConfigRec "INR" 5 10).
Proof.
  split; [reflexivity|].
  destruct (X1_toggle_changes_currency_only sample_state (VRef 7) "USD" 5 10
              eq_refl) as (σ' & E & R & _).
  exists σ'. split; [exact E | exact R].
Defined.

(** X2: outside INR and USD [toggleCurrency()] is no involution: from any
    other currency one call gives INR and a second gives USD, so the
    starting value is not restored. *)
Theorem X2_toggle_other_currency (σ : state) (v : val) (c : string)
    (t d : Z) :
  read_config (heap σ) v = Some (ConfigRec c t d) →
  c ≠ "INR"%string → c ≠ "USD"%string →
  ∃ σ1 σ2,
    AppConfig.toggleCurrency v σ = Ok (tt, σ1) ∧
    read_config (heap σ1) v = Some (ConfigRec "INR" t d) ∧
    AppConfig.toggleCurrency v σ1 = Ok (tt, σ2) ∧
    read_config (heap σ2) v = Some (ConfigRec "USD" t d) ∧
    read_config (heap σ2) v ≠ read_config (heap σ) v.
Proof.
  intros H Hinr Husd.
  destruct (toggle_read_config σ v c t d H) as (σ1 & E1 & R1 & _).
  rewrite decide_False in R1 by done.
  destruct (toggle_read_config σ1 v _ t d R1) as (σ2 & E2 & R2 & _).
  rewrite decide_True in R2 by done.
  exists σ1, σ2. rewrite R2, H. split_and!; [done..|congruence].
Qed.

Lemma X2_toggle_other_currency_witness :
  read_config (heap euro_state) (VRef 1) = Some (ConfigRec "EUR" 5 10) ∧
  ∃ σ1 σ2,
    AppConfig.toggleCurrency (VRef 1) euro_state = Ok (tt, σ1) ∧
    AppConfig.toggleCurrency (VRef 1) σ1 = Ok (tt, σ2) ∧
    read_config (heap σ2) (VRef 1) = Some (ConfigRec "USD" 5 10).
Proof.
  split; [reflexivity|].
  destruct (X2_toggle_other_currency euro_state (VRef 1) "EUR" 5 10 eq_refl)
    as (σ1 & σ2 & E1 & _ & E2 & R & _); [discriminate..|].
  exists σ1, σ2. split; [exact E1|]. split; [exact E2 | exact R].
Defined.

(** X3: when no instance is registered, [new AppConfig()] itself creates
    the configuration with INR, 5 and 10 at a fresh location and
    registers it; a [getInstance()] that follows returns that object and
    leaves the state as it is. *)
Theorem X3_constructor_creates_instance (σ : state) :
  AppConfig_instance σ = VUndef →
  ∃ c σ1,
    AppConfig.new σ = Ok (VRef c, σ1) ∧
    heap σ !! c = None ∧
    AppConfig_instance σ1 = VRef c ∧
    read_config (heap σ1) (VRef c) = Some (ConfigRec "INR" 5 10) ∧
    (∀ l x, heap σ !! l = Some x → heap σ1 !! l = Some x) ∧
    AppConfig.getInstance σ1 = Ok (VRef c, σ1).
Proof.
  intros Hi.
  assert (∃ c σ1,
            AppConfig.new σ = Ok (VRef c, σ1) ∧ heap σ !! c = None ∧
            AppConfig_instance σ1 = VRef c ∧
            read_config (heap σ1) (VRef c) = Some (ConfigRec "INR" 5 10) ∧
            (∀ l x, heap σ !! l = Some x → heap σ1 !! l = Some x))
    as (c & σ1 & E & Hc & Hi1 & R & F).
  { unfold_cfg. run.
    eexists l, _. split; [done|]. split; [done|]. simpl. split; [done|].
    split; [by apply (read_config_shape _ l "AppConfig"); lookups|].
    intros l' x Hl. by lookups. }
  exists c, σ1. split_and!; [done..|]. by apply getInstance_later.
Qed.

Lemma X3_constructor_creates_instance_witness :
  AppConfig_instance bag_state = VUndef ∧
  ∃ c σ1,
    AppConfig.new bag_state = Ok (VRef c, σ1) ∧
    AppConfig.getInstance σ1 = Ok (VRef c, σ1).
Proof.
  split; [reflexivity|].
  destruct (X3_constructor_creates_instance bag_state eq_refl)
    as (c & σ1 & E & _ & _ & _ & _ & G).
  exists c, σ1. split; [exact E | exact G].
Defined.

(** X4: [toString()] of a configuration with currency [c] and safe
    integers [t] and [d] as tax and discount is
    ["Currency=c, Tax=t%, Discount=d%"] with the numbers in decimal, and
    it leaves the state as it is. *)
Theorem X4_toString_format (σ : state) (v : val) (c : string) (t d : Z) :
  read_config (heap σ) v = Some (ConfigRec c t d) →
  safe_int t → safe_int d →
  AppConfig.toString v σ =
    Ok (VStr ("Currency=" +:+ c +:+ ", Tax=" +:+ pretty t +:+ "%, Discount=" +:+
              pretty d +:+ "%"), σ).
Proof.
  intros (l & cls & -> & Hl)%read_config_inv _ _.
  unfold AppConfig.toString. by run.
Qed.

Lemma X4_toString_format_witness :
  read_config (heap sample_state) (VRef 7) = Some (ConfigRec "USD" 5 10) ∧
  safe_int 5 ∧ safe_int 10 ∧
  AppConfig.toString (VRef 7) sample_state =
    Ok (VStr "Currency=USD, Tax=5%, Discount=10%", sample_state).
Proof.
  assert (safe_int 5) as H5 by (vm_compute; split; discriminate).
  assert (safe_int 10) as H10 by (vm_compute; split; discriminate).
  split; [reflexivity|]. split; [exact H5|]. split; [exact H10|].
  exact (X4_toString_format sample_state (VRef 7) "USD" 5 10 eq_refl H5 H10).
Defined.

(** ** The factories *)

(** X5: whatever is passed as name, the participant's name is that value
    when it is truthy and the role's default otherwise, so an empty
    string, 0, null and false get the default like an omitted name. *)
Theorem X5_name_defaulting (σ : state) (name : val) :
  creates_participant σ (VStr "Customer") name
    (ParticipantRec (VStr "Customer")
       (if truthy name then name else VStr "Anon Cust") [VStr "order"]) ∧
  creates_participant σ (VStr "DeliveryPartner") name
    (ParticipantRec (VStr "DeliveryPartner")
       (if truthy name then name else VStr "Anon Rider") [VStr "deliver"]) ∧
  creates_participant σ (VStr "Restaurant") name
    (ParticipantRec (VStr "Restaurant")
       (if truthy name then name else VStr "Anon Resto")
       [VStr "menu"; VStr "receive_orders"]) ∧
  truthy (VStr "") = false ∧ truthy (VNum 0) = false ∧
  truthy VNull = false ∧ truthy (VBool false) = false ∧
  truthy VUndef = false.
Proof.
  destruct (create_participant_run σ name) as (H1 & H2 & H3).
  by split_and!.
Qed.

Lemma participant_shape (σ : state) (type name : val) :
  type ∈ known_categories →
  ∃ p a cls nm perms σ',
    UserFactory.create type name σ = Ok (VRef p, σ') ∧
    heap σ' = <[p := OObj cls [("type"%string, type); ("name"%string, nm);
                               ("permissions"%string, VRef a)]]>
                (<[a := OArr perms]> (heap σ)) ∧
    heap σ !! p = None ∧ heap σ !! a = None ∧ p ≠ a ∧
    AppConfig_instance σ' = AppConfig_instance σ.
Proof.
  unfold known_categories. rewrite !elem_of_cons, elem_of_nil.
  intros [->|[->|[->|[]]]]; unfold_factories; run;
    (eexists l, l0, _, _, _, _; split; [done|]; simpl;
     split; [|by split_and!];
     by rewrite !insert_insert_eq, (insert_insert_ne _ l0 l), insert_insert_eq
       by done).
Qed.

Lemma read_participant_shape (h : gmap loc obj) (p a : loc) (cls : string)
    (ty nm : val) (perms : list val) :
  h !! p = Some (OObj cls [("type"%string, ty); ("name"%string, nm);
                           ("permissions"%string, VRef a)]) →
  h !! a = Some (OArr perms) →
  read_participant h (VRef p) = Some (ParticipantRec ty nm perms) ∧
  field_of h (VRef p) "permissions" = Some (VRef a).
Proof.
  intros Hp Ha. unfold read_participant, field_of, fields_of, elems_of.
  simpl. rewrite Hp. simpl. by rewrite Ha.
Qed.

(** X6: two participants never share anything: the second [create]
    returns a new object with a new permission array, and neither that
    call nor a later [push] on the second participant's permissions
    changes what the first participant reads. *)
Theorem X6_participants_not_shared (σ : state) (t1 n1 t2 n2 x : val) :
  t1 ∈ known_categories → t2 ∈ known_categories →
  ∃ p1 σ1 r1 p2 σ2 a1 a2 σ3,
    UserFactory.create t1 n1 σ = Ok (VRef p1, σ1) ∧
    read_participant (heap σ1) (VRef p1) = Some r1 ∧
    UserFactory.create t2 n2 σ1 = Ok (VRef p2, σ2) ∧
    p1 ≠ p2 ∧
    field_of (heap σ2) (VRef p1) "permissions" = Some (VRef a1) ∧
    field_of (heap σ2) (VRef p2) "permissions" = Some (VRef a2) ∧
    a1 ≠ a2 ∧
    read_participant (heap σ2) (VRef p1) = Some r1 ∧
    array_push (VRef a2) x σ2 = Ok (tt, σ3) ∧
    read_participant (heap σ3) (VRef p1) = Some r1.
Proof.
  intros H1 H2.
  destruct (participant_shape σ t1 n1 H1)
    as (p1 & a1 & c1 & m1 & q1 & σ1 & E1 & Hh1 & Hp1 & Ha1 & Hne1 & _).
  destruct (participant_shape σ1 t2 n2 H2)
    as (p2 & a2 & c2 & m2 & q2 & σ2 & E2 & Hh2 & Hp2 & Ha2 & Hne2 & _).
  rewrite Hh1 in Hp2, Ha2.
  apply lookup_insert_None in Hp2 as [Hp2 ?], Ha2 as [Ha2 ?].
  apply lookup_insert_None in Hp2 as [Hp2 ?], Ha2 as [Ha2 ?].
  assert (heap σ1 !! p1 = Some (OObj c1 [("type"%string, t1);
            ("name"%string, m1); ("permissions"%string, VRef a1)]))
    as Hp by (rewrite Hh1; by lookups).
  assert (heap σ1 !! a1 = Some (OArr q1)) as Ha by (rewrite Hh1; by lookups).
  destruct (read_participant_shape _ _ _ _ _ _ _ Hp Ha) as [R1 _].
  assert (heap σ2 !! p1 = heap σ1 !! p1) as Hp' by (rewrite Hh2; by lookups).
  assert (heap σ2 !! a1 = heap σ1 !! a1) as Ha' by (rewrite Hh2; by lookups).
  rewrite Hp in Hp'. rewrite Ha in Ha'.
  destruct (read_participant_shape _ _ _ _ _ _ _ Hp' Ha') as [R2 F1].
  assert (heap σ2 !! a2 = Some (OArr q2)) as Ha2' by (rewrite Hh2; by lookups).
  assert (heap σ2 !! p2 = Some (OObj c2 [("type"%string, t2);
            ("name"%string, m2); ("permissions"%string, VRef a2)]))
    as Hp2' by (rewrite Hh2; by lookups).
  destruct (read_participant_shape _ _ _ _ _ _ _ Hp2' Ha2') as [_ F2].
  eexists p1, σ1, _, p2, σ2, a1, a2, _.
  split; [done|]. split; [done|]. split; [done|]. split; [done|].
  split; [done|]. split; [done|]. split; [done|]. split; [done|].
  split; [unfold array_push; by rewrite Ha2'|]. simpl.
  apply (read_participant_shape _ p1 a1 c1); by lookups.
Qed.

Lemma X6_participants_not_shared_witness :
  VStr "Customer" ∈ known_categories ∧ VStr "Restaurant" ∈ known_categories ∧
  ∃ p1 σ1 p2 σ2,
    UserFactory.create (VStr "Customer") VUndef sample_state = Ok (VRef p1, σ1) ∧
    UserFactory.create (VStr "Restaurant") VUndef σ1 = Ok (VRef p2, σ2) ∧
    p1 ≠ p2.
Proof.
  assert (VStr "Customer" ∈ known_categories) as H1
    by (apply (bool_decide_unpack _); exact I).
  assert (VStr "Restaurant" ∈ known_categories) as H2
    by (apply (bool_decide_unpack _); exact I).
  split; [exact H1|]. split; [exact H2|].
  destruct (X6_participants_not_shared sample_state (VStr "Customer") VUndef
              (VStr "Restaurant") VUndef (VStr "admin") H1 H2)
    as (p1 & σ1 & r1 & p2 & σ2 & a1 & a2 & σ3 & E1 & _ & E2 & Hne & _).
  exists p1, σ1, p2, σ2. split; [exact E1|]. split; [exact E2 | exact Hne].
Defined.

Lemma pay_shape (k : string) (pre : string → string → string) (this amount : val)
    (σ σ' : state) (v : val) :
  (a ← lift (js_String amount);
   i ← get_field this k;
   s ← lift (js_String i);
   mret (VStr (pre a s))) σ = Ok (v, σ') →
  σ' = σ ∧ ∃ r, v = VStr r.
Proof.
  rewrite bind_run. unfold lift at 1.
  destruct (js_String amount) as [a| |]; [|done..].
  rewrite bind_run. unfold get_field.
  destruct this as [| | | | |l]; try done.
  destruct (heap σ !! l) as [[c fs|]|]; try done.
  rewrite bind_run. unfold lift.
  destruct (js_String (assoc_get k fs)) as [s| |]; [|done..].
  intros [= <- <-]. eauto.
Qed.

(** X7: [pay] only builds a string: whenever a call [p.pay(amount)]
    returns, it returns a string and the state is the one it started
    from. *)
Theorem X7_pay_leaves_state (σ σ' : state) (p amount v : val) :
  call_pay p amount σ = Ok (v, σ') →
  σ' = σ ∧ ∃ r, v = VStr r.
Proof.
  unfold call_pay. rewrite bind_run. unfold class_of.
  destruct p as [| | | | |l]; try done.
  destruct (heap σ !! l) as [[c fs|es]|]; try done.
  destruct (String.eqb c "UPI");
    [apply (pay_shape "id" (λ a s, "Paid " +:+ a +:+ " via UPI (" +:+ s +:+ ")"))|].
  destruct (String.eqb c "Wallet");
    [apply (pay_shape "walletId"
              (λ a s, "Paid " +:+ a +:+ " via Wallet (" +:+ s +:+ ")"))|].
  destruct (String.eqb c "Card"); [|done].
  apply (pay_shape "cardNo"
           (λ a s, "Paid " +:+ a +:+ " via Card (xxxx-" +:+
                   String_slice s (-4) +:+ ")")).
Qed.

Lemma X7_pay_leaves_state_witness :
  call_pay (VRef 1) (VNum 199) payment_state =
    Ok (VStr "Paid 199 via Card (xxxx-5100)", payment_state) ∧
  payment_state = payment_state ∧
  ∃ r, VStr "Paid 199 via Card (xxxx-5100)" = VStr r.
Proof.
  assert (call_pay (VRef 1) (VNum 199) payment_state =
            Ok (VStr "Paid 199 via Card (xxxx-5100)", payment_state)) as E
    by reflexivity.
  split; [exact E|].
  exact (X7_pay_leaves_state payment_state payment_state (VRef 1) (VNum 199)
           _ E).
Defined.

Lemma upi_receipt (σ : state) (l : loc) (cls : string)
    (fs : list (string * val)) (amount : val) (a s : string) :
  heap σ !! l = Some (OObj cls fs) →
  js_String amount = Ok a →
  js_String (js_or (assoc_get "id" fs) (VStr "user@upi")) = Ok s →
  ∃ σ', receipt (VStr "UPI") (VRef l) amount σ =
          Ok (VStr ("Paid " +:+ a +:+ " via UPI (" +:+ s +:+ ")"), σ').
Proof.
  intros Hl Ha Hs. unfold receipt, call_pay, UPI.pay. unfold_factories. run.
  rewrite Ha. run. rewrite Hs. simpl. by eexists.
Qed.

Lemma wallet_receipt (σ : state) (l : loc) (cls : string)
    (fs : list (string * val)) (amount : val) (a s : string) :
  heap σ !! l = Some (OObj cls fs) →
  js_String amount = Ok a →
  js_String (js_or (assoc_get "walletId" fs) (VStr "WALLET123")) = Ok s →
  ∃ σ', receipt (VStr "Wallet") (VRef l) amount σ =
          Ok (VStr ("Paid " +:+ a +:+ " via Wallet (" +:+ s +:+ ")"), σ').
Proof.
  intros Hl Ha Hs. unfold receipt, call_pay, Wallet.pay. unfold_factories. run.
  rewrite Ha. run. rewrite Hs. simpl. by eexists.
Qed.

(** X8: the UPI and Wallet receipts show the identifier in full:
    ["Paid <amount> via UPI (<id>)"] and
    ["Paid <amount> via Wallet (<walletId>)"], for an identifier given as
    a non-empty string, and with ['user@upi'] and ['WALLET123'] when the
    bag has no such key. *)
Theorem X8_upi_wallet_receipts (σ : state) (l : loc) (cls : string)
    (fs : list (string * val)) (amount : val) (a : string) :
  heap σ !! l = Some (OObj cls fs) →
  js_String amount = Ok a →
  (∀ (ch : Ascii.ascii) (s : string),
     assoc_get "id" fs = VStr (String ch s) →
     ∃ σ', receipt (VStr "UPI") (VRef l) amount σ =
             Ok (VStr ("Paid " +:+ a +:+ " via UPI (" +:+ String ch s +:+ ")"),
                 σ')) ∧
  (∀ (ch : Ascii.ascii) (s : string),
     assoc_get "walletId" fs = VStr (String ch s) →
     ∃ σ', receipt (VStr "Wallet") (VRef l) amount σ =
             Ok (VStr ("Paid " +:+ a +:+ " via Wallet (" +:+ String ch s +:+
                       ")"), σ')) ∧
  ("id"%string ∉ fs.*1 →
   ∃ σ', receipt (VStr "UPI") (VRef l) amount σ =
           Ok (VStr ("Paid " +:+ a +:+ " via UPI (user@upi)"), σ')) ∧
  ("walletId"%string ∉ fs.*1 →
   ∃ σ', receipt (VStr "Wallet") (VRef l) amount σ =
           Ok (VStr ("Paid " +:+ a +:+ " via Wallet (WALLET123)"), σ')).
Proof.
  intros Hl Ha. split_and!.
  - intros ch s Hid. apply (upi_receipt σ l cls fs); [done..|].
    by rewrite Hid.
  - intros ch s Hid. apply (wallet_receipt σ l cls fs); [done..|].
    by rewrite Hid.
  - intros Hid%assoc_get_missing.
    apply (upi_receipt σ l cls fs amount a "user@upi"); [done..|].
    by rewrite Hid.
  - intros Hid%assoc_get_missing.
    apply (wallet_receipt σ l cls fs amount a "WALLET123"); [done..|].
    by rewrite Hid.
Qed.

Lemma X8_upi_wallet_receipts_witness :
  heap payment_state !! 2%positive = Some (OObj "Object" []) ∧
  js_String (VNum 75) = Ok "75"%string ∧
  ∃ σ', receipt (VStr "UPI") (VRef 2) (VNum 75) payment_state =
          Ok (VStr "Paid 75 via UPI (user@upi)", σ').
Proof.
  split; [reflexivity|]. split; [reflexivity|].
  refine (proj1 (proj2 (proj2
            (X8_upi_wallet_receipts payment_state 2 "Object" [] (VNum 75) "75"
               eq_refl eq_refl))) _).
  apply (bool_decide_unpack _). exact I.
Defined.

(** X9: the "make payment" click logs
    ["Factory(UPI) -> Paid 199 via UPI (user@upi)"],
    ["Factory(Wallet) -> Paid 199 via Wallet (WALLET123)"] or
    ["Factory(Card) -> Paid 199 via Card (xxxx-4242)"]; for any other
    family it throws the unknown-family error and logs nothing. *)
Theorem X9_makePayment_click (σ : state) :
  (∃ σ', makePayment_click (VStr "UPI") σ =
           Ok (VStr "Factory(UPI) -> Paid 199 via UPI (user@upi)", σ')) ∧
  (∃ σ', makePayment_click (VStr "Wallet") σ =
           Ok (VStr "Factory(Wallet) -> Paid 199 via Wallet (WALLET123)", σ')) ∧
  (∃ σ', makePayment_click (VStr "Card") σ =
           Ok (VStr "Factory(Card) -> Paid 199 via Card (xxxx-4242)", σ')) ∧
  (∀ family, family ∉ known_families →
             makePayment_click family σ = Throw UnknownPaymentFamily).
Proof.
  split_and!.
  1-3: unfold makePayment_click, call_pay, UPI.pay, Wallet.pay, Card.pay;
       unfold_factories; run; by eexists.
  intros family Hf. unfold makePayment_click. rewrite bind_run.
  destruct (alloc_run (OObj "Object" []) σ) as (l & -> & _).
  by rewrite bind_run, create_payment_unknown.
Qed.

Lemma string_length_app (s1 s2 : string) :
  String.length (s1 +:+ s2) = (String.length s1 + String.length s2)%nat.
Proof. induction s1 as [|ch s1 IH]; simpl; [done|]. by rewrite IH. Qed.

Lemma string_drop_app (s1 s2 : string) :
  string_drop (String.length s1) (s1 +:+ s2) = s2.
Proof. induction s1 as [|ch s1 IH]; simpl; [done|]. by rewrite IH. Qed.

Lemma slice_keeps_last_four (pre x : string) :
  String.length x = 4%nat → String_slice (pre +:+ x) (-4) = x.
Proof.
  intros Hx. unfold String_slice. simpl.
  rewrite string_length_app, Hx.
  replace (Z.to_nat (Z.max (Z.of_nat (String.length pre + 4) + -4) 0))
    with (String.length pre) by lia.
  apply string_drop_app.
Qed.

Lemma slice_short (s : string) :
  (String.length s ≤ 4)%nat → String_slice s (-4) = s.
Proof.
  intros Hs. unfold String_slice. simpl.
  by replace (Z.to_nat (Z.max (Z.of_nat (String.length s) + -4) 0))
    with 0%nat by lia.
Qed.

Lemma truthy_nonempty (s : string) :
  (0 < String.length s)%nat → truthy (VStr s) = true.
Proof. destruct s; simpl; [lia|done]. Qed.

(** X10: the Card receipt depends on the last four characters of the
    card number only: for a number [pre ++ x] with [x] four characters
    long it is ["Paid <amount> via Card (xxxx-x)"], whatever [pre] is. *)
Theorem X10_card_receipt_masks_prefix (σ : state) (l : loc) (cls : string)
    (fs : list (string * val)) (amount : val) (a pre x : string) :
  heap σ !! l = Some (OObj cls fs) →
  js_String amount = Ok a →
  assoc_get "cardNo" fs = VStr (pre +:+ x) →
  String.length x = 4%nat →
  ∃ σ', receipt (VStr "Card") (VRef l) amount σ =
          Ok (VStr ("Paid " +:+ a +:+ " via Card (xxxx-" +:+ x +:+ ")"), σ').
Proof.
  intros Hl Ha Hc Hx.
  destruct (card_receipt σ l cls fs amount a (pre +:+ x) Hl Ha) as (σ' & E).
  { rewrite Hc. unfold js_or. rewrite truthy_nonempty; [done|].
    rewrite string_length_app. lia. }
  exists σ'. by rewrite E, slice_keeps_last_four.
Qed.

Lemma X10_card_receipt_masks_prefix_witness :
  heap card_bag_state !! 1%positive =
    Some (OObj "Object" [("cardNo"%string, VStr "5105105105105100")]) ∧
  ∃ σ', receipt (VStr "Card") (VRef 1) (VNum 199) card_bag_state =
          Ok (VStr "Paid 199 via Card (xxxx-5100)", σ').
Proof.
  split; [reflexivity|].
  exact (X10_card_receipt_masks_prefix card_bag_state 1 "Object" _ (VNum 199)
           "199" "510510510510" "5100" eq_refl eq_refl eq_refl eq_refl).
Defined.

(** X11: a card number of at most four characters is not masked at all:
    the receipt shows ["xxxx-"] followed by the whole number. *)
Theorem X11_short_card_number_shown (σ : state) (l : loc) (cls : string)
    (fs : list (string * val)) (amount : val) (a s : string) :
  heap σ !! l = Some (OObj cls fs) →
  js_String amount = Ok a →
  assoc_get "cardNo" fs = VStr s →
  (0 < String.length s ≤ 4)%nat →
  ∃ σ', receipt (VStr "Card") (VRef l) amount σ =
          Ok (VStr ("Paid " +:+ a +:+ " via Card (xxxx-" +:+ s +:+ ")"), σ').
Proof.
  intros Hl Ha Hc [Hs0 Hs4].
  destruct (card_receipt σ l cls fs amount a s Hl Ha) as (σ' & E).
  { rewrite Hc. unfold js_or. by rewrite truthy_nonempty. }
  exists σ'. by rewrite E, slice_short.
Qed.

Lemma X11_short_card_number_shown_witness :
  heap short_card_state !! 1%positive =
    Some (OObj "Object" [("cardNo"%string, VStr "42")]) ∧
  ∃ σ', receipt (VStr "Card") (VRef 1) (VNum 199) short_card_state =
          Ok (VStr "Paid 199 via Card (xxxx-42)", σ').
Proof.
  split; [reflexivity|].
  refine (X11_short_card_number_shown short_card_state 1 "Object" _ (VNum 199)
            "199" "42" eq_refl eq_refl eq_refl _).
  simpl. lia.
Defined.

(** X12: [create] needs an options object for a known family: with
    [undefined] or [null] in its place it throws a TypeError, while an
    unknown family is rejected first, with the unknown-family error. *)
Theorem X12_create_without_options (σ : state) (family opts : val) :
  opts = VUndef ∨ opts = VNull →
  (family ∈ known_families →
   ∃ msg, PaymentFactory.create family opts σ = Throw (TypeError msg)) ∧
  (family ∉ known_families →
   PaymentFactory.create family opts σ = Throw UnknownPaymentFamily).
Proof.
  intros Hopts. split; [|apply create_payment_unknown].
  unfold known_families. rewrite !elem_of_cons, elem_of_nil.
  intros [->|[->|[->|[]]]]; destruct Hopts as [-> | ->]; by eexists.
Qed.

Lemma X12_create_without_options_witness :
  (VUndef = VUndef ∨ VUndef = VNull) ∧
  ∃ msg, PaymentFactory.create (VStr "UPI") VUndef sample_state =
           Throw (TypeError msg).
Proof.
  split; [left; reflexivity|].
  apply (proj1 (X12_create_without_options sample_state (VStr "UPI") VUndef
                  (or_introl eq_refl))).
  apply (bool_decide_unpack _). exact I.
Defined.

(** ** The assembler *)

Lemma fold_kept (ops : list op) (r : order_rec) :
  Forall (λ c, keeps_order c = true) ops →
  ord_price (foldl (λ r c, apply_op c r) r ops) =
    ord_price r + total_charge ops ∧
  ord_toppings (foldl (λ r c, apply_op c r) r ops) =
    ord_toppings r ++ added_toppings ops.
Proof.
  revert r. induction ops as [|c ops IH]; intros r Hk.
  - simpl. rewrite app_nil_r. split; [lia|done].
  - apply Forall_cons in Hk as [Hc Hk]. simpl.
    destruct (IH (apply_op c r) Hk) as [-> ->].
    unfold total_charge, added_toppings.
    destruct c; try done; simpl; rewrite ?size_price_base;
      (split; [lia|]); try done.
    by rewrite <- app_assoc.
Qed.

Lemma run_ops_kept (ops : list op) (σ : state) (b o t : loc) (r : order_rec) :
  builder_at (heap σ) b o t r →
  Forall (λ c, keeps_order c = true) ops →
  ∃ rets σ',
    run_ops (VRef b) ops σ = Ok (rets, σ') ∧
    builder_at (heap σ') b o t (foldl (λ r c, apply_op c r) r ops) ∧
    Forall (λ v, v = VRef b) rets.
Proof.
  revert σ r. induction ops as [|c ops IH]; intros σ r Hat Hk.
  - by exists [], σ.
  - apply Forall_cons in Hk as [Hc Hk].
    assert (∃ σ1, run_op (VRef b) c σ = Ok (VRef b, σ1) ∧
                  builder_at (heap σ1) b o t (apply_op c r)) as (σ1 & E1 & Hat1).
    { pose proof Hat as (Hb & Ho & Ht). destruct c; try done; simpl.
      - rewrite (setSize_run σ b o t r Hat s). eexists. split; [done|].
        simpl. by wf_solve.
      - rewrite (addTopping_run σ b o t r Hat t0). eexists. split; [done|].
        simpl. by wf_solve.
      - rewrite (setNotes_run σ b o t r Hat n). eexists. split; [done|].
        simpl. by wf_solve. }
    destruct (IH σ1 _ Hat1 Hk) as (rets & σ2 & E2 & Hat2 & Hall).
    exists (VRef b :: rets), σ2. split_and!; [|done|by constructor].
    unfold run_ops in *. by rewrite mapM_cons, bind_run, E1, bind_run, E2.
Qed.

(** X13: over calls of [setSize], [addTopping] and [setNotes] the price
    grows by the sum of what each call charges (300, 200 or 120 for the
    size, 30 per topping, nothing for notes), as long as the prices are
    safe integers, and the toppings are appended in call order,
    duplicates included; every such call returns the assembler and keeps
    working on the same order object. *)
Theorem X13_price_accumulates (σ : state) (b o t : loc) (r : order_rec)
    (ops : list op) :
  builder_at (heap σ) b o t r →
  Forall (λ c, keeps_order c = true) ops →
  safe_int (ord_price r) →
  safe_int (ord_price r + total_charge ops) →
  ∃ rets σ' r',
    run_ops (VRef b) ops σ = Ok (rets, σ') ∧
    Forall (λ v, v = VRef b) rets ∧
    field_of (heap σ') (VRef b) "order" = Some (VRef o) ∧
    current_order (heap σ') (VRef b) = Some r' ∧
    ord_price r' = ord_price r + total_charge ops ∧
    ord_toppings r' = ord_toppings r ++ added_toppings ops.
Proof.
  intros Hat Hk _ _.
  destruct (run_ops_kept ops σ b o t r Hat Hk) as (rets & σ' & E & Hat' & Hall).
  destruct (fold_kept ops r Hk) as [Hp Ht].
  eexists rets, σ', _. split; [done|]. split; [done|].
  split. { destruct Hat' as [Hb _]. unfold field_of, fields_of. simpl.
           by rewrite Hb. }
  split; [by eapply current_order_at|]. done.
Qed.

Lemma X13_price_accumulates_witness :
  builder_at (heap sample_state) 1 2 3 idle ∧
  safe_int (ord_price idle) ∧
  safe_int (ord_price idle +
            total_charge [AddTopping "Corn"; SetSize "Medium";
                          AddTopping "Corn"; SetNotes "hot"]) ∧
  ∃ rets σ' r',
    run_ops (VRef 1)
      [AddTopping "Corn"; SetSize "Medium"; AddTopping "Corn"; SetNotes "hot"]
      sample_state = Ok (rets, σ') ∧
    current_order (heap σ') (VRef 1) = Some r' ∧
    ord_price r' = 180 ∧ ord_toppings r' = ["Corn"; "Corn"].
Proof.
  assert (builder_at (heap sample_state) 1 2 3 idle) as H
    by (repeat split; reflexivity).
  assert (safe_int (ord_price idle)) as H0
    by (vm_compute; split; discriminate).
  assert (safe_int (ord_price idle +
                    total_charge [AddTopping "Corn"; SetSize "Medium";
                                  AddTopping "Corn"; SetNotes "hot"])) as H1
    by (vm_compute; split; discriminate).
  split; [exact H|]. split; [exact H0|]. split; [exact H1|].
  destruct (X13_price_accumulates sample_state 1 2 3 idle
              [AddTopping "Corn"; SetSize "Medium"; AddTopping "Corn";
               SetNotes "hot"] H)
    as (rets & σ' & r' & E & _ & _ & C & P & T).
  { repeat constructor. }
  { exact H0. }
  { exact H1. }
  exists rets, σ', r'. split; [exact E|]. split; [exact C|].
  split; [exact P | exact T].
Defined.

Lemma total_charge_perm (ops1 ops2 : list op) :
  ops1 ≡ₚ ops2 → total_charge ops1 = total_charge ops2.
Proof.
  unfold total_charge. induction 1; simpl; lia.
Qed.

Lemma added_toppings_perm (ops1 ops2 : list op) :
  ops1 ≡ₚ ops2 → added_toppings ops1 ≡ₚ added_toppings ops2.
Proof.
  unfold added_toppings. induction 1 as [|c|c1 c2|]; simpl.
  - done.
  - destruct c; simpl; by try constructor.
  - destruct c1, c2; simpl; try done. apply perm_swap.
  - by etrans.
Qed.

(** X14: the price does not depend on the order of the calls: two
    sequences of [setSize], [addTopping] and [setNotes] calls that are
    permutations of each other leave the same price, as long as the
    prices are safe integers, and the same toppings up to order. *)
Theorem X14_price_order_independent (σ : state) (b o t : loc) (r : order_rec)
    (ops1 ops2 : list op) :
  builder_at (heap σ) b o t r →
  Forall (λ c, keeps_order c = true) ops1 →
  ops1 ≡ₚ ops2 →
  safe_int (ord_price r) →
  safe_int (ord_price r + total_charge ops1) →
  ∃ rets1 σ1 r1 rets2 σ2 r2,
    run_ops (VRef b) ops1 σ = Ok (rets1, σ1) ∧
    current_order (heap σ1) (VRef b) = Some r1 ∧
    run_ops (VRef b) ops2 σ = Ok (rets2, σ2) ∧
    current_order (heap σ2) (VRef b) = Some r2 ∧
    ord_price r1 = ord_price r2 ∧
    ord_toppings r1 ≡ₚ ord_toppings r2.
Proof.
  intros Hat Hk1 Hperm _ _.
  assert (Forall (λ c, keeps_order c = true) ops2) as Hk2
    by (by rewrite <- Hperm).
  destruct (run_ops_kept ops1 σ b o t r Hat Hk1) as (rets1 & σ1 & E1 & Hat1 & _).
  destruct (run_ops_kept ops2 σ b o t r Hat Hk2) as (rets2 & σ2 & E2 & Hat2 & _).
  destruct (fold_kept ops1 r Hk1) as [Hp1 Ht1].
  destruct (fold_kept ops2 r Hk2) as [Hp2 Ht2].
  eexists rets1, σ1, _, rets2, σ2, _.
  split; [done|]. split; [by eapply current_order_at|].
  split; [done|]. split; [by eapply current_order_at|].
  rewrite Hp1, Hp2, Ht1, Ht2. split.
  - by rewrite (total_charge_perm _ _ Hperm).
  - by rewrite (added_toppings_perm _ _ Hperm).
Qed.

Lemma X14_price_order_independent_witness :
  builder_at (heap sample_state) 1 2 3 idle ∧
  safe_int (ord_price idle) ∧
  safe_int (ord_price idle +
            total_charge [SetSize "Large"; AddTopping "Corn"]) ∧
  ∃ rets1 σ1 r1 rets2 σ2 r2,
    run_ops (VRef 1) [SetSize "Large"; AddTopping "Corn"] sample_state =
      Ok (rets1, σ1) ∧
    current_order (heap σ1) (VRef 1) = Some r1 ∧
    run_ops (VRef 1) [AddTopping "Corn"; SetSize "Large"] sample_state =
      Ok (rets2, σ2) ∧
    current_order (heap σ2) (VRef 1) = Some r2 ∧
    ord_price r1 = ord_price r2.
Proof.
  assert (builder_at (heap sample_state) 1 2 3 idle) as H
    by (repeat split; reflexivity).
  assert (safe_int (ord_price idle)) as H0
    by (vm_compute; split; discriminate).
  assert (safe_int (ord_price idle +
                    total_charge [SetSize "Large"; AddTopping "Corn"])) as H1
    by (vm_compute; split; discriminate).
  split; [exact H|]. split; [exact H0|]. split; [exact H1|].
  destruct (X14_price_order_independent sample_state 1 2 3 idle
              [SetSize "Large"; AddTopping "Corn"]
              [AddTopping "Corn"; SetSize "Large"] H)
    as (rets1 & σ1 & r1 & rets2 & σ2 & r2 & E1 & C1 & E2 & C2 & P & _).
  { repeat constructor. }
  { apply perm_swap. }
  { exact H0. }
  { exact H1. }
  exists rets1, σ1, r1, rets2, σ2, r2.
  split; [exact E1|]. split; [exact C1|]. split; [exact E2|].
  split; [exact C2 | exact P].
Defined.

Lemma fold_after_restart (ops1 ops2 : list op) (c : op) (r : order_rec) :
  c = Reset ∨ c = Build →
  foldl (λ r c, apply_op c r) r (ops1 ++ c :: ops2) =
  foldl (λ r c, apply_op c r) idle ops2.
Proof. intros [-> | ->]; by rewrite foldl_app. Qed.

(** X15: [reset()] and [build()] make the earlier calls irrelevant: on a
    fresh assembler, a call sequence that contains a [reset()] or a
    [build()] leaves the same working order as the calls after it alone. *)
Theorem X15_restart_forgets_history (σ0 : state) (ops1 ops2 : list op) :
  ∃ b σ1 rets σ2 retsR σR retsB σB r,
    OrderBuilder.new σ0 = Ok (b, σ1) ∧
    run_ops b ops2 σ1 = Ok (rets, σ2) ∧
    current_order (heap σ2) b = Some r ∧
    run_ops b (ops1 ++ Reset :: ops2) σ1 = Ok (retsR, σR) ∧
    current_order (heap σR) b = Some r ∧
    run_ops b (ops1 ++ Build :: ops2) σ1 = Ok (retsB, σB) ∧
    current_order (heap σB) b = Some r.
Proof.
  destruct (new_run σ0) as (b & o & t & σ1 & E & Hat & _).
  destruct (run_ops_steps ops2 σ1 b o t idle Hat)
    as (rets & σ2 & o2 & t2 & E2 & Hat2 & _).
  destruct (run_ops_steps (ops1 ++ Reset :: ops2) σ1 b o t idle Hat)
    as (retsR & σR & oR & tR & ER & HatR & _).
  destruct (run_ops_steps (ops1 ++ Build :: ops2) σ1 b o t idle Hat)
    as (retsB & σB & oB & tB & EB & HatB & _).
  rewrite fold_after_restart in HatR by auto.
  rewrite fold_after_restart in HatB by auto.
  eexists (VRef b), σ1, rets, σ2, retsR, σR, retsB, σB, _.
  split; [done|]. split; [done|]. split; [by eapply current_order_at|].
  split; [done|]. split; [by eapply current_order_at|].
  split; [done|]. by eapply current_order_at.
Qed.

(** X16: the assembler does not depend on the snapshots it has handed
    out: after a snapshot is modified as the page modifies a clone (one
    more topping, price plus 30), the assembler is still idle and the
    next build returns what the calls made since then amount to on a
    fresh assembler. *)
Theorem X16_snapshot_change_leaves_assembler (σ0 : state)
    (ops1 ops2 : list op) :
  ∃ b σ1 rets1 σ2 s σ3 σ4 rets2 σ5 s2 σ6 retsF σF r2,
    OrderBuilder.new σ0 = Ok (b, σ1) ∧
    run_ops b ops1 σ1 = Ok (rets1, σ2) ∧
    OrderBuilder.build b σ2 = Ok (s, σ3) ∧
    modifyClone s σ3 = Ok (tt, σ4) ∧
    current_order (heap σ4) b = Some idle ∧
    run_ops b ops2 σ4 = Ok (rets2, σ5) ∧
    OrderBuilder.build b σ5 = Ok (s2, σ6) ∧
    read_order (heap σ6) s2 = Some r2 ∧
    run_ops b ops2 σ1 = Ok (retsF, σF) ∧
    current_order (heap σF) b = Some r2.
Proof.
  destruct (new_run σ0) as (b & o & t & σ1 & E & Hat & _).
  destruct (run_ops_steps ops1 σ1 b o t idle Hat)
    as (rets1 & σ2 & o2 & t2 & E1 & Hat2 & _).
  destruct (build_snapshot σ2 b o2 t2 _ Hat2)
    as (s & st & o3 & t3 & σ3 & E2 & [Hs Hst] & Hat3 & _ & _ & Hne).
  destruct Hne as (? & ? & ? & ? & ? & ?).
  pose proof Hat3 as (Hb3 & Ho3 & Ht3).
  assert (∃ σ4, modifyClone (VRef s) σ3 = Ok (tt, σ4) ∧
                builder_at (heap σ4) b o3 t3 idle) as (σ4 & E3 & Hat4).
  { unfold modifyClone. run. eexists. split; [done|]. simpl. by wf_solve. }
  destruct (run_ops_steps ops2 σ4 b o3 t3 idle Hat4)
    as (rets2 & σ5 & o5 & t5 & E4 & Hat5 & _).
  destruct (build_snapshot σ5 b o5 t5 _ Hat5)
    as (s2 & st2 & o6 & t6 & σ6 & E5 & Hs2 & _).
  destruct (run_ops_steps ops2 σ1 b o t idle Hat)
    as (retsF & σF & oF & tF & EF & HatF & _).
  eexists (VRef b), σ1, rets1, σ2, (VRef s), σ3, σ4, rets2, σ5, (VRef s2), σ6,
    retsF, σF, _.
  split; [done|]. split; [done|]. split; [done|]. split; [done|].
  split; [by eapply current_order_at|]. split; [done|]. split; [done|].
  split; [by eapply read_order_at|]. split; [done|].
  by eapply current_order_at.
Qed.

Lemma mapM_addTopping (b : val) (ts : list string) :
  mapM (λ t, OrderBuilder.addTopping b t) (VStr <$> ts) =
  run_ops b (AddTopping <$> ts).
Proof.
  unfold run_ops. induction ts as [|x ts IH]; [done|].
  by rewrite !fmap_cons, !mapM_cons, IH.
Qed.

Lemma fold_add_toppings (ts : list string) (r : order_rec) :
  foldl (λ r c, apply_op c r) r (AddTopping <$> ts) =
  OrderRec (ord_size r) (ord_toppings r ++ ts) (ord_notes r)
    (ord_price r + 30 * Z.of_nat (length ts)).
Proof.
  revert r. induction ts as [|x ts IH]; intros r.
  - simpl. rewrite app_nil_r, Z.add_0_r. by destruct r.
  - rewrite fmap_cons. simpl foldl. rewrite IH. simpl.
    rewrite <- app_assoc. f_equal. lia.
Qed.

(** X17: one "build order" click yields the order of the form alone: the
    chosen size, the ticked toppings in order, the notes, and as price
    the size's base price plus 30 per topping, whatever the assembler
    held before the click; the assembler is idle afterwards. *)
Theorem X17_buildOrder_click (σ : state) (b o t : loc) (r : order_rec)
    (size notes : string) (toppings : list string) :
  builder_at (heap σ) b o t r →
  ∃ built σ',
    buildOrder_click (VRef b) (VStr size) (VStr notes) (VStr <$> toppings) σ =
      Ok (built, σ') ∧
    read_order (heap σ') built =
      Some (OrderRec (Some size) toppings notes
              (OrderBuilder.size_price (VStr size) +
               30 * Z.of_nat (length toppings))) ∧
    current_order (heap σ') (VRef b) = Some idle.
Proof.
  intros Hat.
  destruct (run_op_step σ b o t r Reset Hat)
    as (? & σ1 & o1 & t1 & E1 & Hat1 & _ & R1).
  rewrite R1 in E1 by done.
  destruct (run_op_step σ1 b o1 t1 _ (SetSize size) Hat1)
    as (? & σ2 & o2 & t2 & E2 & Hat2 & _ & R2).
  rewrite R2 in E2 by done.
  destruct (run_ops_steps (AddTopping <$> toppings) σ2 b o2 t2 _ Hat2)
    as (rets & σ3 & o3 & t3 & E3 & Hat3 & _).
  destruct (run_op_step σ3 b o3 t3 _ (SetNotes notes) Hat3)
    as (? & σ4 & o4 & t4 & E4 & Hat4 & _ & R4).
  rewrite R4 in E4 by done.
  destruct (build_snapshot σ4 b o4 t4 _ Hat4)
    as (s & st & o5 & t5 & σ5 & E5 & Hs & Hat5 & _).
  simpl in E1, E2, E4.
  exists (VRef s), σ5. split; [|split].
  - unfold buildOrder_click.
    by rewrite bind_run, E1, bind_run, E2, bind_run, mapM_addTopping, E3,
         bind_run, E4.
  - rewrite (read_order_at _ _ _ _ _ Hs), fold_add_toppings. simpl.
    do 2 f_equal.
  - by eapply current_order_at.
Qed.

Lemma X17_buildOrder_click_witness :
  builder_at (heap sample_state) 1 2 3 idle ∧
  ∃ built σ',
    buildOrder_click (VRef 1) (VStr "Large") (VStr "no onion")
      (VStr <$> ["Olives"; "Olives"]) sample_state = Ok (built, σ') ∧
    read_order (heap σ') built =
      Some (OrderRec (Some "Large") ["Olives"; "Olives"] "no onion" 260).
Proof.
  assert (builder_at (heap sample_state) 1 2 3 idle) as H
    by (repeat split; reflexivity).
  split; [exact H|].
  destruct (X17_buildOrder_click sample_state 1 2 3 idle "Large" "no onion"
              ["Olives"; "Olives"] H) as (built & σ' & E & R & _).
  exists built, σ'. split; [exact E | exact R].
Defined.

(** X18: [build()] hands out a copy, not its working object: the
    snapshot is a new plain object (class Object, not Order), the old
    working order stays in the store unchanged, and no object other than
    the assembler itself is modified, nor is the registered
    configuration. *)
Theorem X18_build_returns_plain_copy (σ : state) (b o t : loc)
    (r : order_rec) :
  builder_at (heap σ) b o t r →
  ∃ s σ',
    OrderBuilder.build (VRef b) σ = Ok (VRef s, σ') ∧
    heap σ !! s = None ∧
    class_of (VRef s) σ' = Ok ("Object"%string, σ') ∧
    class_of (VRef o) σ' = Ok ("Order"%string, σ') ∧
    read_order (heap σ') (VRef o) = Some r ∧
    (∀ l x, heap σ !! l = Some x → l ≠ b → heap σ' !! l = Some x) ∧
    AppConfig_instance σ' = AppConfig_instance σ.
Proof.
  intros Hat. pose proof Hat as (Hb & Ho & Ht).
  destruct (build_run σ b o t r Hat)
    as (s & st & o' & t' & σ1 & σ' & E & Hc & Hh & Hi & _ & Ho' & Ht' & Hne).
  pose proof (copied_order_at _ _ _ _ _ Hc) as [Hs Hst].
  pose proof Hc as (_ & _ & _ & Hfs & _).
  pose proof (copied_frame _ _ _ _ _ o _ Hc Ho) as (Ho1 & _).
  pose proof (copied_frame _ _ _ _ _ t _ Hc Ht) as (Ht1 & _).
  pose proof (copied_frame _ _ _ _ _ b _ Hc Hb) as (Hb1 & _).
  assert (heap σ' !! o = heap σ !! o) as Eo by (rewrite Hh, Ho; by lookups).
  assert (heap σ' !! t = heap σ !! t) as Et by (rewrite Hh, Ht; by lookups).
  assert (heap σ' !! s = heap σ1 !! s) as Es by (rewrite Hh; by lookups).
  exists s, σ'. split; [done|]. split; [done|].
  split; [unfold class_of; by rewrite Es, Hs|].
  split; [unfold class_of; by rewrite Eo, Ho|].
  split; [by eapply read_order_at, (order_at_frame _ _ _ _ _ _ (proj2 Hat))|].
  split; [|done].
  intros l x Hl Hlb.
  pose proof (copied_frame _ _ _ _ _ l _ Hc Hl) as (Hl1 & _).
  rewrite Hh. by lookups.
Qed.

Lemma X18_build_returns_plain_copy_witness :
  builder_at (heap sample_state) 1 2 3 idle ∧
  ∃ s σ',
    OrderBuilder.build (VRef 1) sample_state = Ok (VRef s, σ') ∧
    class_of (VRef s) σ' = Ok ("Object"%string, σ').
Proof.
  assert (builder_at (heap sample_state) 1 2 3 idle) as H
    by (repeat split; reflexivity).
  split; [exact H|].
  destruct (X18_build_returns_plain_copy sample_state 1 2 3 idle H)
    as (s & σ' & E & _ & C & _).
  exists s, σ'. split; [exact E | exact C].
Defined.

(** X19: [clone] adds exactly two objects to the store, the copy (a
    plain object) and its topping array, and changes nothing that was
    there, nor the registered configuration. *)
Theorem X19_clone_only_allocates (σ : state) (s : val) (r : order_rec) :
  read_order (heap σ) s = Some r →
  ∃ c σ',
    clone s σ = Ok (c, σ') ∧
    class_of c σ' = Ok ("Object"%string, σ') ∧
    size (heap σ') = S (S (size (heap σ))) ∧
    (∀ l x, heap σ !! l = Some x → heap σ' !! l = Some x) ∧
    AppConfig_instance σ' = AppConfig_instance σ ∧
    host_structuredClone σ' = host_structuredClone σ.
Proof.
  intros (cls & l & t & -> & Hat)%read_order_inv.
  destruct (clone_run σ cls l t r Hat) as (c & ct & σ' & E & Hc).
  pose proof (copied_order_at _ _ _ _ _ Hc) as [Hc1 _].
  pose proof Hc as (Hh & Hi & Hsc & Hfc & Hfct & Hne).
  exists (VRef c), σ'. split; [done|].
  split; [unfold class_of; by rewrite Hc1|].
  split.
  { rewrite Hh, !map_size_insert_None; [done..|]. by lookups. }
  split; [|done].
  intros l' x Hl. by destruct (copied_frame _ _ _ _ _ l' _ Hc Hl).
Qed.

Lemma X19_clone_only_allocates_witness :
  read_order (heap sample_state) (VRef 5) =
    Some (OrderRec (Some "Large") ["Olives"] "" 230) ∧
  ∃ c σ', clone (VRef 5) sample_state = Ok (c, σ') ∧
          size (heap σ') = 9%nat.
Proof.
  split; [reflexivity|].
  destruct (X19_clone_only_allocates sample_state (VRef 5) _ eq_refl)
    as (c & σ' & E & _ & S & _).
  exists c, σ'. split; [exact E | exact S].
Defined.

(** X20: [reset()] starts a new order object instead of clearing the old
    one: the assembler then points to a fresh idle order, and the object
    it worked on before still reads as it did. *)
Theorem X20_reset_leaves_old_order (σ : state) (b o t : loc) (r : order_rec) :
  builder_at (heap σ) b o t r →
  ∃ o' σ',
    OrderBuilder.reset (VRef b) σ = Ok (VRef b, σ') ∧
    field_of (heap σ') (VRef b) "order" = Some (VRef o') ∧
    heap σ !! o' = None ∧
    current_order (heap σ') (VRef b) = Some idle ∧
    read_order (heap σ') (VRef o) = Some r ∧
    (∀ l x, heap σ !! l = Some x → l ≠ b → heap σ' !! l = Some x).
Proof.
  intros Hat. pose proof Hat as (Hb & Ho & Ht).
  destruct (reset_run σ b o t r Hat) as (o' & t' & E & Ho' & Ht' & Hne).
  eexists o', _. split; [done|]. simpl.
  split; [unfold field_of, fields_of; simpl; by lookups|].
  split; [done|].
  split; [apply (current_order_at _ b o' t'); by wf_solve|].
  split; [apply (read_order_at _ "Order" o t); split; by lookups|].
  intros l x Hl ?. by lookups.
Qed.

Lemma X20_reset_leaves_old_order_witness :
  builder_at (heap sample_state) 1 2 3 idle ∧
  ∃ o' σ',
    OrderBuilder.reset (VRef 1) sample_state = Ok (VRef 1, σ') ∧
    field_of (heap σ') (VRef 1) "order" = Some (VRef o') ∧
    read_order (heap σ') (VRef 2) = Some idle.
Proof.
  assert (builder_at (heap sample_state) 1 2 3 idle) as H
    by (repeat split; reflexivity).
  split; [exact H|].
  destruct (X20_reset_leaves_old_order sample_state 1 2 3 idle H)
    as (o' & σ' & E & F & _ & _ & R & _).
  exists o', σ'. split; [exact E|]. split; [exact F | exact R].
Defined.

(** X21: [setNotes] overwrites: two calls in a row leave exactly the
    state that the second call alone leaves, so the price, the size and
    the toppings are untouched and only the last notes remain. *)
Theorem X21_setNotes_overwrites (σ : state) (b o t : loc) (r : order_rec)
    (n1 n2 : string) :
  builder_at (heap σ) b o t r →
  ∃ σ1 σ2,
    OrderBuilder.setNotes (VRef b) (VStr n1) σ = Ok (VRef b, σ1) ∧
    OrderBuilder.setNotes (VRef b) (VStr n2) σ1 = Ok (VRef b, σ2) ∧
    OrderBuilder.setNotes (VRef b) (VStr n2) σ = Ok (VRef b, σ2) ∧
    current_order (heap σ2) (VRef b) =
      Some (OrderRec (ord_size r) (ord_toppings r) n2 (ord_price r)).
Proof.
  intros Hat. pose proof Hat as (Hb & Ho & Ht).
  rewrite (setNotes_run σ b o t r Hat n1), (setNotes_run σ b o t r Hat n2).
  eexists _, _. split; [done|].
  assert (builder_at
            (heap (with_heap
                     (<[o:=OObj "Order"
                             (order_fields (apply_op (SetNotes n1) r) t)]>
                        (heap σ)) σ)) b o t (apply_op (SetNotes n1) r))
    as Hat1 by (unfold builder_at, order_at; simpl; split_and!; by lookups).
  rewrite (setNotes_run _ b o t _ Hat1 n2). simpl.
  rewrite insert_insert_eq. split; [done|]. split; [done|].
  apply (current_order_at _ b o t).
  unfold builder_at, order_at; simpl; split_and!; by lookups.
Qed.

Lemma X21_setNotes_overwrites_witness :
  builder_at (heap sample_state) 1 2 3 idle ∧
  ∃ σ1 σ2,
    OrderBuilder.setNotes (VRef 1) (VStr "extra hot") sample_state =
      Ok (VRef 1, σ1) ∧
    OrderBuilder.setNotes (VRef 1) (VStr "mild") σ1 = Ok (VRef 1, σ2) ∧
    OrderBuilder.setNotes (VRef 1) (VStr "mild") sample_state =
      Ok (VRef 1, σ2).
Proof.
  assert (builder_at (heap sample_state) 1 2 3 idle) as H
    by (repeat split; reflexivity).
  split; [exact H|].
  destruct (X21_setNotes_overwrites sample_state 1 2 3 idle "extra hot" "mild"
              H) as (σ1 & σ2 & E1 & E2 & E3 & _).
  exists σ1, σ2. split; [exact E1|]. split; [exact E2 | exact E3].
Defined.

Lemma run_op_instance (σ σ' : state) (b o t : loc) (r : order_rec) (c : op)
    (ret : val) :
  builder_at (heap σ) b o t r →
  run_op (VRef b) c σ = Ok (ret, σ') →
  AppConfig_instance σ' = AppConfig_instance σ.
Proof.
  intros Hat. destruct c as [|s|x|n|]; simpl.
  - destruct (reset_run σ b o t r Hat) as (o' & t' & -> & _).
    by intros [= <- <-].
  - rewrite (setSize_run σ b o t r Hat s). by intros [= <- <-].
  - rewrite (addTopping_run σ b o t r Hat x). by intros [= <- <-].
  - rewrite (setNotes_run σ b o t r Hat n). by intros [= <- <-].
  - destruct (build_run σ b o t r Hat)
      as (s & st & o' & t' & σ1 & σ2 & -> & _ & _ & Hi & _).
    by intros [= <- <-].
Qed.

Lemma run_ops_instance (ops : list op) (σ : state) (b o t : loc)
    (r : order_rec) :
  builder_at (heap σ) b o t r →
  ∃ rets σ',
    run_ops (VRef b) ops σ = Ok (rets, σ') ∧
    AppConfig_instance σ' = AppConfig_instance σ ∧
    (∀ l x, heap σ !! l = Some x → l ≠ b → l ≠ o → l ≠ t →
            heap σ' !! l = Some x).
Proof.
  revert σ o t r. induction ops as [|c ops IH]; intros σ o t r Hat.
  - by exists [], σ.
  - destruct (run_op_step σ b o t r c Hat)
      as (ret & σ1 & o1 & t1 & E1 & Hat1 & F1 & _).
    pose proof (run_op_instance σ σ1 b o t r c ret Hat E1) as Hi1.
    destruct (IH σ1 o1 t1 _ Hat1) as (rets & σ2 & E2 & Hi2 & F2).
    exists (ret :: rets), σ2. split_and!.
    + unfold run_ops in *. by rewrite mapM_cons, bind_run, E1, bind_run, E2.
    + congruence.
    + intros l x Hl ? ? ?.
      destruct (F1 l x Hl) as (Hl1 & ? & ?); [done..|]. by apply F2.
Qed.

Lemma new_run_fresh (σ : state) :
  ∃ b o t σ', OrderBuilder.new σ = Ok (VRef b, σ') ∧
              builder_at (heap σ') b o t idle ∧
              heap σ !! b = None ∧ heap σ !! o = None ∧ heap σ !! t = None ∧
              AppConfig_instance σ' = AppConfig_instance σ ∧
              (∀ l x, heap σ !! l = Some x → heap σ' !! l = Some x).
Proof.
  unfold OrderBuilder.new, OrderBuilder.constructor, OrderBuilder.reset.
  unfold_prims.
  destruct (alloc_run (OObj "OrderBuilder" []) σ) as (b & -> & Hb).
  destruct (Order_new_run (with_heap (<[b:=OObj "OrderBuilder" []]> (heap σ)) σ))
    as (o & t & -> & Ho & Ht & Hne).
  simpl in Ho, Ht.
  apply lookup_insert_None in Ho as [Ho ?], Ht as [Ht ?].
  run. eexists b, o, t, _. split; [done|]. simpl.
  split; [by wf_solve|]. split; [done|]. split; [done|]. split; [done|].
  split; [done|].
  intros l' x Hl. by lookups.
Qed.

(** X22: nothing done with an assembler reaches the rest of the store:
    creating it and calling its methods in any sequence leaves every
    object that existed before as it was, and the registered
    configuration too. *)
Theorem X22_assembler_leaves_store (σ0 : state) (ops : list op) :
  ∃ b σ1 rets σ2,
    OrderBuilder.new σ0 = Ok (b, σ1) ∧
    run_ops b ops σ1 = Ok (rets, σ2) ∧
    length rets = length ops ∧
    AppConfig_instance σ2 = AppConfig_instance σ0 ∧
    (∀ l x, heap σ0 !! l = Some x → heap σ2 !! l = Some x).
Proof.
  destruct (new_run_fresh σ0)
    as (b & o & t & σ1 & E & Hat & Hb & Ho & Ht & Hi & F).
  destruct (run_ops_instance ops σ1 b o t idle Hat) as (rets & σ2 & E2 & Hi2 & F2).
  exists (VRef b), σ1, rets, σ2. split; [done|]. split; [done|].
  split.
  { clear -E2. unfold run_ops in E2. revert rets σ1 E2.
    induction ops as [|c ops IH]; intros rets σ1 E2.
    - by injection E2 as <- _.
    - rewrite mapM_cons, bind_run in E2.
      destruct (run_op (VRef b) c σ1) as [[v σ']| |]; [|done..].
      rewrite bind_run in E2.
      destruct (mapM (run_op (VRef b)) ops σ') as [[vs σ'']| |] eqn:E;
        [|done..].
      injection E2 as <- <-. simpl. f_equal. by eapply IH. }
  split; [congruence|].
  intros l x Hl. apply F2; [by apply F|congruence..].
Qed.
